(** * svox: the tensor boundary layer ([svox/csrc/svox.cpp]) and the
      octree core it dispatches to.

    The C++ translation unit validates its tensor arguments, pins the CUDA
    device and forwards to eight [_*_cuda] kernels that it only declares.
    The first part of this file embeds that translation unit over a small
    model of [torch::Tensor] handles; the second part models the kernels'
    algorithms (octree traversal, vertical query/assign, ray compositing)
    from the design document, since their bodies live in CUDA sources that
    are not part of the translation unit. *)

From Stdlib Require Import ZArith QArith Qround String List Bool Lia.
From Stdlib Require Import Reals Qreals Lra.
From stdpp Require Import base option list gmap.

Open Scope string_scope.
Open Scope Z_scope.

(** ** Tensors as seen by the boundary layer *)

Module Torch.

(** [c10::Device]: host memory or a CUDA device with its ordinal. *)
Inductive Device :=
| CPU
| CUDA (index : Z).

(** [c10::ScalarType], the element types PyTorch tensors carry. *)
Inductive ScalarType :=
| kByte | kChar | kShort | kInt | kLong
| kHalf | kFloat | kDouble
| kComplexHalf | kComplexFloat | kComplexDouble
| kBool | kBFloat16.

(** A [torch::Tensor] is a handle: metadata plus a reference to the storage
    it views.  Two handles with the same [storage] alias the same buffer. *)
Record Tensor := mkTensor {
  device : Device;
  contiguous : bool;
  sizes : list Z;
  scalar_type : ScalarType;
  storage : nat
}.

Definition is_cuda (x : Tensor) : bool :=
  match device x with CUDA _ => true | CPU => false end.

Definition is_contiguous (x : Tensor) : bool := contiguous x.

Definition dim (x : Tensor) : Z := Z.of_nat (length (sizes x)).

Definition ndimension (x : Tensor) : Z := dim x.

Definition is_floating_point (x : Tensor) : bool :=
  match scalar_type x with
  | kHalf | kFloat | kDouble | kBFloat16 => true
  | _ => false
  end.

(** C++ exceptions raised by [TORCH_CHECK] and by out-of-range [size(d)]. *)
Inductive Exception :=
| c10_Error (what : string)
| c10_IndexError (what : string).

(** The state a call can observe or change: device buffers by storage
    handle, and the CUDA device that is current for kernel launches. *)
Record World := mkWorld {
  memory : gmap nat (list Q);
  current_device : Z
}.

Definition set_device (i : Z) (w : World) : World :=
  {| memory := memory w; current_device := i |}.

(** Computations that may throw and may mutate the world.  A throw keeps
    the world as it was at the point of the throw. *)
Definition M (A : Type) : Type := World -> (Exception + A) * World.

#[export] Instance M_ret : MRet M := fun A a w => (inr a, w).

#[export] Instance M_bind : MBind M := fun A B f m w =>
  match m w with
  | (inl e, w') => (inl e, w')
  | (inr a, w') => f a w'
  end.

Definition throw {A} (e : Exception) : M A := fun w => (inl e, w).

(** [TORCH_CHECK(cond, msg)]: throws [c10::Error] when [cond] is false.
    Where the source gives no message, [msg] is the stringified condition
    that the default message quotes. *)
Definition TORCH_CHECK (cond : bool) (msg : string) : M unit :=
  if cond then mret tt else throw (c10_Error msg).

(** [#define CHECK_CUDA(x)
      TORCH_CHECK(x.is_cuda(), #x " must be a CUDA tensor")];
    the stringified argument [#x] is passed as [name]. *)
Definition CHECK_CUDA (name : string) (x : Tensor) : M unit :=
  TORCH_CHECK (is_cuda x) (name ++ " must be a CUDA tensor")%string.

Definition CHECK_CONTIGUOUS (name : string) (x : Tensor) : M unit :=
  TORCH_CHECK (is_contiguous x) (name ++ " must be contiguous")%string.

Definition CHECK_INPUT (name : string) (x : Tensor) : M unit :=
  CHECK_CUDA name x ;; CHECK_CONTIGUOUS name x.

(** [x.size(d)] for a non-negative [d]: throws on a missing dimension. *)
Definition size (x : Tensor) (d : nat) : M Z :=
  match sizes x !! d with
  | Some n => mret n
  | None => throw (c10_IndexError "Dimension out of range")
  end.

(** [device_of(x)]: the device of a defined tensor. *)
Definition device_of (x : Tensor) : option Device := Some (device x).

(** [const at::cuda::OptionalCUDAGuard device_guard(d)] around [body]: the
    guard makes the given CUDA device current and its destructor restores
    the previous one, also when [body] throws. *)
Definition OptionalCUDAGuard {A} (d : option Device) (body : M A) : M A :=
  fun w =>
    match d with
    | None => body w
    | Some CPU => (inl (c10_Error "Expected a CUDA device"), w)
    | Some (CUDA i) =>
        let '(r, w') := body (set_device i w) in
        (r, set_device (current_device w) w')
    end.

End Torch.

(** ** The translation unit [svox.cpp] *)

Module Svox.
Import Torch.

(** C [float] arguments are only forwarded by this layer; they are kept as
    rationals (every finite float is one). *)
Definition float : Type := Q.

(** The forward declarations of lines 42-87: the eight CUDA entry points.
    Their bodies are not in this translation unit, so the wrappers are
    parameterised over them. *)
Record Kernels := mkKernels {
  _query_vertical_cuda :
    Tensor -> Tensor -> Tensor -> Tensor -> Tensor -> M (Tensor * Tensor);
  _query_vertical_backward_cuda :
    Tensor -> Tensor -> Tensor -> Tensor -> Tensor -> M Tensor;
  _assign_vertical_cuda :
    Tensor -> Tensor -> Tensor -> Tensor -> Tensor -> Tensor -> M unit;
  _volume_render_cuda :
    Tensor -> Tensor -> Tensor -> Tensor -> Tensor -> Tensor -> Tensor ->
    Tensor -> float -> float -> Z -> Z -> bool -> Tensor -> M Tensor;
  _volume_render_image_cuda :
    Tensor -> Tensor -> Tensor -> Tensor -> Tensor -> Tensor -> float ->
    float -> Z -> Z -> float -> float -> Z -> Z -> Z -> Z -> float -> bool ->
    Tensor -> M Tensor;
  _volume_render_backward_cuda :
    Tensor -> Tensor -> Tensor -> Tensor -> Tensor -> Tensor -> Tensor ->
    Tensor -> Tensor -> float -> float -> Z -> Z -> M Tensor;
  _volume_render_image_backward_cuda :
    Tensor -> Tensor -> Tensor -> Tensor -> Tensor -> Tensor -> Tensor ->
    float -> float -> Z -> Z -> float -> float -> Z -> Z -> Z -> Z -> float ->
    M Tensor;
  _grid_weight_render_cuda :
    Tensor -> Tensor -> Tensor -> Tensor -> float -> float -> Z -> Z ->
    float -> Z -> Z -> float -> bool -> M (list Tensor)
}.

Section Wrappers.
Context (K : Kernels).

(** Lines 95-110. *)
Definition query_vertical (data child indices offset scaling : Tensor)
  : M (Tensor * Tensor) :=
  CHECK_INPUT "data" data ;;
  CHECK_INPUT "child" child ;;
  CHECK_INPUT "indices" indices ;;
  CHECK_INPUT "offset" offset ;;
  CHECK_INPUT "scaling" scaling ;;
  TORCH_CHECK (dim indices =? 2) "indices.dim() == 2" ;;
  TORCH_CHECK (is_floating_point indices) "indices.is_floating_point()" ;;
  OptionalCUDAGuard (device_of data)
    (_query_vertical_cuda K data child indices offset scaling).

(** Lines 119-135. *)
Definition query_vertical_backward
  (child indices grad_output offset scaling : Tensor) : M Tensor :=
  CHECK_INPUT "child" child ;;
  CHECK_INPUT "grad_output" grad_output ;;
  CHECK_INPUT "indices" indices ;;
  CHECK_INPUT "offset" offset ;;
  CHECK_INPUT "scaling" scaling ;;
  TORCH_CHECK (dim indices =? 2) "indices.dim() == 2" ;;
  TORCH_CHECK (is_floating_point indices) "indices.is_floating_point()" ;;
  OptionalCUDAGuard (device_of grad_output)
    (_query_vertical_backward_cuda K child indices grad_output offset scaling).

(** Lines 143-159. *)
Definition assign_vertical
  (data child indices values offset scaling : Tensor) : M unit :=
  CHECK_INPUT "data" data ;;
  CHECK_INPUT "child" child ;;
  CHECK_INPUT "indices" indices ;;
  CHECK_INPUT "values" values ;;
  CHECK_INPUT "offset" offset ;;
  CHECK_INPUT "scaling" scaling ;;
  TORCH_CHECK (dim indices =? 2) "indices.dim() == 2" ;;
  TORCH_CHECK (dim values =? 2) "values.dim() == 2" ;;
  TORCH_CHECK (is_floating_point indices) "indices.is_floating_point()" ;;
  TORCH_CHECK (is_floating_point values) "values.is_floating_point()" ;;
  OptionalCUDAGuard (device_of data)
    (_assign_vertical_cuda K data child indices values offset scaling).

(** [TORCH_CHECK(a.size(0) == b.size(0))]: both [size] calls may throw
    before the comparison is made. *)
Definition CHECK_SAME_SIZE0 (a b : Tensor) (msg : string) : M unit :=
  na ← size a 0 ; nb ← size b 0 ; TORCH_CHECK (na =? nb) msg.

(** Lines 161-183. *)
Definition volume_render
  (data child extra_data origins dirs vdirs offset scaling : Tensor)
  (step_size background_brightness : float) (format basis_dim : Z)
  (fast : bool) (weight_accum : Tensor) : M Tensor :=
  CHECK_INPUT "data" data ;;
  CHECK_INPUT "child" child ;;
  CHECK_INPUT "extra_data" extra_data ;;
  CHECK_INPUT "origins" origins ;;
  CHECK_INPUT "dirs" dirs ;;
  CHECK_INPUT "vdirs" vdirs ;;
  CHECK_INPUT "offset" offset ;;
  CHECK_INPUT "scaling" scaling ;;
  CHECK_SAME_SIZE0 dirs vdirs "dirs.size(0) == vdirs.size(0)" ;;
  CHECK_SAME_SIZE0 dirs origins "dirs.size(0) == origins.size(0)" ;;
  OptionalCUDAGuard (device_of data)
    (_volume_render_cuda K data child extra_data origins dirs vdirs offset
       scaling step_size background_brightness format basis_dim fast
       weight_accum).

(** [TORCH_CHECK(c2w.size(1) == 4)]. *)
Definition CHECK_SIZE1_IS_4 (c2w : Tensor) : M unit :=
  n ← size c2w 1 ; TORCH_CHECK (n =? 4) "c2w.size(1) == 4".

(** Lines 185-201. *)
Definition grid_weight_render
  (data offset scaling c2w : Tensor) (fx fy : float) (width height : Z)
  (step_size : float) (ndc_width ndc_height : Z) (ndc_focal : float)
  (fast : bool) : M (list Tensor) :=
  CHECK_INPUT "data" data ;;
  CHECK_INPUT "c2w" c2w ;;
  CHECK_INPUT "scaling" scaling ;;
  TORCH_CHECK (ndimension data =? 3) "data.ndimension() == 3" ;;
  TORCH_CHECK (ndimension c2w =? 2) "c2w.ndimension() == 2" ;;
  CHECK_SIZE1_IS_4 c2w ;;
  OptionalCUDAGuard (device_of data)
    (_grid_weight_render_cuda K data offset scaling c2w fx fy width height
       step_size ndc_width ndc_height ndc_focal fast).

(** Lines 203-221. *)
Definition volume_render_image
  (data child extra_data offset scaling c2w : Tensor) (fx fy : float)
  (width height : Z) (step_size background_brightness : float)
  (format basis_dim ndc_width ndc_height : Z) (ndc_focal : float)
  (fast : bool) (weight_accum : Tensor) : M Tensor :=
  CHECK_INPUT "data" data ;;
  CHECK_INPUT "child" child ;;
  CHECK_INPUT "extra_data" extra_data ;;
  CHECK_INPUT "c2w" c2w ;;
  CHECK_INPUT "scaling" scaling ;;
  TORCH_CHECK (ndimension c2w =? 2) "c2w.ndimension() == 2" ;;
  CHECK_SIZE1_IS_4 c2w ;;
  OptionalCUDAGuard (device_of data)
    (_volume_render_image_cuda K data child extra_data offset scaling c2w fx
       fy width height step_size background_brightness format basis_dim
       ndc_width ndc_height ndc_focal fast weight_accum).

(** Lines 223-244. *)
Definition volume_render_backward
  (data child extra_data grad_output origins dirs vdirs offset scaling
     : Tensor)
  (step_size background_brightness : float) (format basis_dim : Z)
  : M Tensor :=
  CHECK_INPUT "data" data ;;
  CHECK_INPUT "child" child ;;
  CHECK_INPUT "extra_data" extra_data ;;
  CHECK_INPUT "grad_output" grad_output ;;
  CHECK_INPUT "origins" origins ;;
  CHECK_INPUT "dirs" dirs ;;
  CHECK_INPUT "vdirs" vdirs ;;
  CHECK_INPUT "offset" offset ;;
  CHECK_INPUT "scaling" scaling ;;
  CHECK_SAME_SIZE0 dirs vdirs "dirs.size(0) == vdirs.size(0)" ;;
  CHECK_SAME_SIZE0 dirs origins "dirs.size(0) == origins.size(0)" ;;
  TORCH_CHECK (ndimension grad_output =? 2) "grad_output.ndimension() == 2" ;;
  OptionalCUDAGuard (device_of data)
    (_volume_render_backward_cuda K data child extra_data grad_output origins
       dirs vdirs offset scaling step_size background_brightness format
       basis_dim).

(** Lines 246-266. *)
Definition volume_render_image_backward
  (data child extra_data grad_output offset scaling c2w : Tensor)
  (fx fy : float) (width height : Z) (step_size background_brightness : float)
  (format basis_dim ndc_width ndc_height : Z) (ndc_focal : float)
  : M Tensor :=
  CHECK_INPUT "data" data ;;
  CHECK_INPUT "child" child ;;
  CHECK_INPUT "extra_data" extra_data ;;
  CHECK_INPUT "grad_output" grad_output ;;
  CHECK_INPUT "c2w" c2w ;;
  CHECK_INPUT "scaling" scaling ;;
  TORCH_CHECK (ndimension c2w =? 2) "c2w.ndimension() == 2" ;;
  CHECK_SIZE1_IS_4 c2w ;;
  TORCH_CHECK (ndimension grad_output =? 3) "grad_output.ndimension() == 3" ;;
  OptionalCUDAGuard (device_of data)
    (_volume_render_image_backward_cuda K data child extra_data grad_output
       offset scaling c2w fx fy width height step_size background_brightness
       format basis_dim ndc_width ndc_height ndc_focal).

(** *** The exported module (lines 268-281) *)

(** A bound C++ function pointer, tagged by the wrapper's signature. *)
Inductive cpp_function :=
| fn_query
    (f : Tensor -> Tensor -> Tensor -> Tensor -> Tensor -> M (Tensor * Tensor))
| fn_query_backward
    (f : Tensor -> Tensor -> Tensor -> Tensor -> Tensor -> M Tensor)
| fn_assign
    (f : Tensor -> Tensor -> Tensor -> Tensor -> Tensor -> Tensor -> M unit)
| fn_render
    (f : Tensor -> Tensor -> Tensor -> Tensor -> Tensor -> Tensor -> Tensor ->
         Tensor -> float -> float -> Z -> Z -> bool -> Tensor -> M Tensor)
| fn_render_image
    (f : Tensor -> Tensor -> Tensor -> Tensor -> Tensor -> Tensor -> float ->
         float -> Z -> Z -> float -> float -> Z -> Z -> Z -> Z -> float ->
         bool -> Tensor -> M Tensor)
| fn_render_backward
    (f : Tensor -> Tensor -> Tensor -> Tensor -> Tensor -> Tensor -> Tensor ->
         Tensor -> Tensor -> float -> float -> Z -> Z -> M Tensor)
| fn_render_image_backward
    (f : Tensor -> Tensor -> Tensor -> Tensor -> Tensor -> Tensor -> Tensor ->
         float -> float -> Z -> Z -> float -> float -> Z -> Z -> Z -> Z ->
         float -> M Tensor)
| fn_grid_weight
    (f : Tensor -> Tensor -> Tensor -> Tensor -> float -> float -> Z -> Z ->
         float -> Z -> Z -> float -> bool -> M (list Tensor)).

Record py_def := mk_def {
  def_name : string;
  def_impl : cpp_function;
  def_doc : option string
}.

(** [m.def(name, &f, doc)] appends an attribute to the module. *)
Definition m_def (name : string) (f : cpp_function) (doc : option string)
  (m : list py_def) : list py_def :=
  m ++ [mk_def name f doc].

Definition PYBIND11_MODULE : list py_def :=
  let m := [] in
  let m := m_def "query_vertical" (fn_query query_vertical)
             (Some "Query tree at coords [0, 1)") m in
  let m := m_def "query_vertical_backward"
             (fn_query_backward query_vertical_backward)
             (Some "Backwards pass for query_vertical") m in
  let m := m_def "assign_vertical" (fn_assign assign_vertical)
             (Some "Assign tree at given coords [0, 1)") m in
  let m := m_def "volume_render" (fn_render volume_render) None m in
  let m := m_def "volume_render_image" (fn_render_image volume_render_image)
             None m in
  let m := m_def "volume_render_backward"
             (fn_render_backward volume_render_backward) None m in
  let m := m_def "volume_render_image_backward"
             (fn_render_image_backward volume_render_image_backward) None m in
  let m := m_def "grid_weight_render" (fn_grid_weight grid_weight_render)
             None m in
  m.

(** Attribute lookup on the module object. *)
Definition getattr (m : list py_def) (name : string) : option cpp_function :=
  def_impl <$> find (fun d => String.eqb (def_name d) name) m.

End Wrappers.

(** *** Calls, for statements that range over every exported operation *)

(** One call of an exported operation together with its arguments. *)
Inductive Call :=
| call_query_vertical (data child indices offset scaling : Tensor)
| call_query_vertical_backward
    (child indices grad_output offset scaling : Tensor)
| call_assign_vertical (data child indices values offset scaling : Tensor)
| call_volume_render
    (data child extra_data origins dirs vdirs offset scaling : Tensor)
    (step_size background_brightness : float) (format basis_dim : Z)
    (fast : bool) (weight_accum : Tensor)
| call_grid_weight_render
    (data offset scaling c2w : Tensor) (fx fy : float) (width height : Z)
    (step_size : float) (ndc_width ndc_height : Z) (ndc_focal : float)
    (fast : bool)
| call_volume_render_image
    (data child extra_data offset scaling c2w : Tensor) (fx fy : float)
    (width height : Z) (step_size background_brightness : float)
    (format basis_dim ndc_width ndc_height : Z) (ndc_focal : float)
    (fast : bool) (weight_accum : Tensor)
| call_volume_render_backward
    (data child extra_data grad_output origins dirs vdirs offset scaling
       : Tensor)
    (step_size background_brightness : float) (format basis_dim : Z)
| call_volume_render_image_backward
    (data child extra_data grad_output offset scaling c2w : Tensor)
    (fx fy : float) (width height : Z)
    (step_size background_brightness : float)
    (format basis_dim ndc_width ndc_height : Z) (ndc_focal : float).

Definition result_type (c : Call) : Type :=
  match c with
  | call_query_vertical _ _ _ _ _ => (Tensor * Tensor)%type
  | call_assign_vertical _ _ _ _ _ _ => unit
  | call_grid_weight_render _ _ _ _ _ _ _ _ _ _ _ _ _ => list Tensor
  | _ => Tensor
  end.

(** Every tensor argument an operation consumes, under its parameter name. *)
Definition tensor_args (c : Call) : list (string * Tensor) :=
  match c with
  | call_query_vertical data child indices offset scaling =>
      [("data", data); ("child", child); ("indices", indices);
       ("offset", offset); ("scaling", scaling)]
  | call_query_vertical_backward child indices grad_output offset scaling =>
      [("child", child); ("indices", indices); ("grad_output", grad_output);
       ("offset", offset); ("scaling", scaling)]
  | call_assign_vertical data child indices values offset scaling =>
      [("data", data); ("child", child); ("indices", indices);
       ("values", values); ("offset", offset); ("scaling", scaling)]
  | call_volume_render data child extra_data origins dirs vdirs offset scaling
      _ _ _ _ _ weight_accum =>
      [("data", data); ("child", child); ("extra_data", extra_data);
       ("origins", origins); ("dirs", dirs); ("vdirs", vdirs);
       ("offset", offset); ("scaling", scaling);
       ("weight_accum", weight_accum)]
  | call_grid_weight_render data offset scaling c2w _ _ _ _ _ _ _ _ _ =>
      [("data", data); ("offset", offset); ("scaling", scaling);
       ("c2w", c2w)]
  | call_volume_render_image data child extra_data offset scaling c2w
      _ _ _ _ _ _ _ _ _ _ _ _ weight_accum =>
      [("data", data); ("child", child); ("extra_data", extra_data);
       ("offset", offset); ("scaling", scaling); ("c2w", c2w);
       ("weight_accum", weight_accum)]
  | call_volume_render_backward data child extra_data grad_output origins dirs
      vdirs offset scaling _ _ _ _ =>
      [("data", data); ("child", child); ("extra_data", extra_data);
       ("grad_output", grad_output); ("origins", origins); ("dirs", dirs);
       ("vdirs", vdirs); ("offset", offset); ("scaling", scaling)]
  | call_volume_render_image_backward data child extra_data grad_output offset
      scaling c2w _ _ _ _ _ _ _ _ _ _ _ =>
      [("data", data); ("child", child); ("extra_data", extra_data);
       ("grad_output", grad_output); ("offset", offset);
       ("scaling", scaling); ("c2w", c2w)]
  end.

(** The operations that build their rays from a camera transform. *)
Definition camera_driven (c : Call) : bool :=
  match c with
  | call_grid_weight_render _ _ _ _ _ _ _ _ _ _ _ _ _
  | call_volume_render_image _ _ _ _ _ _ _ _ _ _ _ _ _ _ _ _ _ _ _
  | call_volume_render_image_backward _ _ _ _ _ _ _ _ _ _ _ _ _ _ _ _ _ _ =>
      true
  | _ => false
  end.

Section Dispatch.
Context (K : Kernels).

(** Running a call: the wrapper the exported name is bound to. *)
Definition run (c : Call) : M (result_type c) :=
  match c with
  | call_query_vertical data child indices offset scaling =>
      query_vertical K data child indices offset scaling
  | call_query_vertical_backward child indices grad_output offset scaling =>
      query_vertical_backward K child indices grad_output offset scaling
  | call_assign_vertical data child indices values offset scaling =>
      assign_vertical K data child indices values offset scaling
  | call_volume_render data child extra_data origins dirs vdirs offset scaling
      step_size background_brightness format basis_dim fast weight_accum =>
      volume_render K data child extra_data origins dirs vdirs offset scaling
        step_size background_brightness format basis_dim fast weight_accum
  | call_grid_weight_render data offset scaling c2w fx fy width height
      step_size ndc_width ndc_height ndc_focal fast =>
      grid_weight_render K data offset scaling c2w fx fy width height
        step_size ndc_width ndc_height ndc_focal fast
  | call_volume_render_image data child extra_data offset scaling c2w fx fy
      width height step_size background_brightness format basis_dim ndc_width
      ndc_height ndc_focal fast weight_accum =>
      volume_render_image K data child extra_data offset scaling c2w fx fy
        width height step_size background_brightness format basis_dim
        ndc_width ndc_height ndc_focal fast weight_accum
  | call_volume_render_backward data child extra_data grad_output origins dirs
      vdirs offset scaling step_size background_brightness format basis_dim =>
      volume_render_backward K data child extra_data grad_output origins dirs
        vdirs offset scaling step_size background_brightness format basis_dim
  | call_volume_render_image_backward data child extra_data grad_output offset
      scaling c2w fx fy width height step_size background_brightness format
      basis_dim ndc_width ndc_height ndc_focal =>
      volume_render_image_backward K data child extra_data grad_output offset
        scaling c2w fx fy width height step_size background_brightness format
        basis_dim ndc_width ndc_height ndc_focal
  end.

(** The kernel launch a call ends in once every check has passed: the
    device guard around the matching [_*_cuda] entry point. *)
Definition launch (c : Call) : M (result_type c) :=
  match c with
  | call_query_vertical data child indices offset scaling =>
      OptionalCUDAGuard (device_of data)
        (_query_vertical_cuda K data child indices offset scaling)
  | call_query_vertical_backward child indices grad_output offset scaling =>
      OptionalCUDAGuard (device_of grad_output)
        (_query_vertical_backward_cuda K child indices grad_output offset
           scaling)
  | call_assign_vertical data child indices values offset scaling =>
      OptionalCUDAGuard (device_of data)
        (_assign_vertical_cuda K data child indices values offset scaling)
  | call_volume_render data child extra_data origins dirs vdirs offset scaling
      step_size background_brightness format basis_dim fast weight_accum =>
      OptionalCUDAGuard (device_of data)
        (_volume_render_cuda K data child extra_data origins dirs vdirs offset
           scaling step_size background_brightness format basis_dim fast
           weight_accum)
  | call_grid_weight_render data offset scaling c2w fx fy width height
      step_size ndc_width ndc_height ndc_focal fast =>
      OptionalCUDAGuard (device_of data)
        (_grid_weight_render_cuda K data offset scaling c2w fx fy width height
           step_size ndc_width ndc_height ndc_focal fast)
  | call_volume_render_image data child extra_data offset scaling c2w fx fy
      width height step_size background_brightness format basis_dim ndc_width
      ndc_height ndc_focal fast weight_accum =>
      OptionalCUDAGuard (device_of data)
        (_volume_render_image_cuda K data child extra_data offset scaling c2w
           fx fy width height step_size background_brightness format
           basis_dim ndc_width ndc_height ndc_focal fast weight_accum)
  | call_volume_render_backward data child extra_data grad_output origins dirs
      vdirs offset scaling step_size background_brightness format basis_dim =>
      OptionalCUDAGuard (device_of data)
        (_volume_render_backward_cuda K data child extra_data grad_output
           origins dirs vdirs offset scaling step_size background_brightness
           format basis_dim)
  | call_volume_render_image_backward data child extra_data grad_output offset
      scaling c2w fx fy width height step_size background_brightness format
      basis_dim ndc_width ndc_height ndc_focal =>
      OptionalCUDAGuard (device_of data)
        (_volume_render_image_backward_cuda K data child extra_data
           grad_output offset scaling c2w fx fy width height step_size
           background_brightness format basis_dim ndc_width ndc_height
           ndc_focal)
  end.

End Dispatch.

(** *** The preconditions, read off the wrappers as boolean conditions *)

(** [CHECK_INPUT(x)] passes. *)
Definition input_ok (x : Tensor) : bool := is_cuda x && is_contiguous x.

(** [a.size(0) == b.size(0)] evaluates, and to true. *)
Definition same_size0 (a b : Tensor) : bool :=
  match sizes a !! 0%nat, sizes b !! 0%nat with
  | Some na, Some nb => na =? nb
  | _, _ => false
  end.

(** [c2w.size(1) == 4] evaluates, and to true. *)
Definition size1_is_4 (c2w : Tensor) : bool :=
  match sizes c2w !! 1%nat with Some n => n =? 4 | None => false end.

(** [c2w.ndimension() == 2] and [c2w.size(1) == 4]. *)
Definition c2w_ok (c2w : Tensor) : bool :=
  (ndimension c2w =? 2) && size1_is_4 c2w.

(** All checks of the wrapper a call goes through. *)
Definition accepts (c : Call) : bool :=
  match c with
  | call_query_vertical data child indices offset scaling =>
      input_ok data && input_ok child && input_ok indices &&
      input_ok offset && input_ok scaling &&
      (dim indices =? 2) && is_floating_point indices
  | call_query_vertical_backward child indices grad_output offset scaling =>
      input_ok child && input_ok grad_output && input_ok indices &&
      input_ok offset && input_ok scaling &&
      (dim indices =? 2) && is_floating_point indices
  | call_assign_vertical data child indices values offset scaling =>
      input_ok data && input_ok child && input_ok indices &&
      input_ok values && input_ok offset && input_ok scaling &&
      (dim indices =? 2) && (dim values =? 2) &&
      is_floating_point indices && is_floating_point values
  | call_volume_render data child extra_data origins dirs vdirs offset scaling
      _ _ _ _ _ _ =>
      input_ok data && input_ok child && input_ok extra_data &&
      input_ok origins && input_ok dirs && input_ok vdirs &&
      input_ok offset && input_ok scaling &&
      same_size0 dirs vdirs && same_size0 dirs origins
  | call_grid_weight_render data _ scaling c2w _ _ _ _ _ _ _ _ _ =>
      input_ok data && input_ok c2w && input_ok scaling &&
      (ndimension data =? 3) && c2w_ok c2w
  | call_volume_render_image data child extra_data _ scaling c2w
      _ _ _ _ _ _ _ _ _ _ _ _ _ =>
      input_ok data && input_ok child && input_ok extra_data &&
      input_ok c2w && input_ok scaling && c2w_ok c2w
  | call_volume_render_backward data child extra_data grad_output origins dirs
      vdirs offset scaling _ _ _ _ =>
      input_ok data && input_ok child && input_ok extra_data &&
      input_ok grad_output && input_ok origins && input_ok dirs &&
      input_ok vdirs && input_ok offset && input_ok scaling &&
      same_size0 dirs vdirs && same_size0 dirs origins &&
      (ndimension grad_output =? 2)
  | call_volume_render_image_backward data child extra_data grad_output _
      scaling c2w _ _ _ _ _ _ _ _ _ _ _ =>
      input_ok data && input_ok child && input_ok extra_data &&
      input_ok grad_output && input_ok c2w && input_ok scaling &&
      c2w_ok c2w && (ndimension grad_output =? 3)
  end.

(** *** Outcomes of a call *)

(** [gated ok m1 m2 b1 b2]: when [ok] holds the computations [m1], [m2]
    continue as [b1], [b2]; otherwise both throw the same exception and
    leave the world as it was. *)
Definition gated {A} (ok : bool) (m1 m2 b1 b2 : M A) : Prop :=
  forall w,
    if ok then m1 w = b1 w /\ m2 w = b2 w
    else exists e, m1 w = (inl e, w) /\ m2 w = (inl e, w).

(** A call rejected by its checks: an exception, the world untouched, and
    the same outcome whatever the kernels are. *)
Definition rejected (c : Call) (w : World) : Prop :=
  exists e, forall K, run K c w = (inl e, w).

(** *** Calls that differ in their tensors only *)

(** The same call with each tensor argument replaced by its image under
    [f], which is told the parameter name. *)
Definition map_tensors (f : string -> Tensor -> Tensor) (c : Call) : Call :=
  match c with
  | call_query_vertical data child indices offset scaling =>
      call_query_vertical (f "data" data) (f "child" child)
        (f "indices" indices) (f "offset" offset) (f "scaling" scaling)
  | call_query_vertical_backward child indices grad_output offset scaling =>
      call_query_vertical_backward (f "child" child) (f "indices" indices)
        (f "grad_output" grad_output) (f "offset" offset)
        (f "scaling" scaling)
  | call_assign_vertical data child indices values offset scaling =>
      call_assign_vertical (f "data" data) (f "child" child)
        (f "indices" indices) (f "values" values) (f "offset" offset)
        (f "scaling" scaling)
  | call_volume_render data child extra_data origins dirs vdirs offset scaling
      step_size background_brightness format basis_dim fast weight_accum =>
      call_volume_render (f "data" data) (f "child" child)
        (f "extra_data" extra_data) (f "origins" origins) (f "dirs" dirs)
        (f "vdirs" vdirs) (f "offset" offset) (f "scaling" scaling)
        step_size background_brightness format basis_dim fast
        (f "weight_accum" weight_accum)
  | call_grid_weight_render data offset scaling c2w fx fy width height
      step_size ndc_width ndc_height ndc_focal fast =>
      call_grid_weight_render (f "data" data) (f "offset" offset)
        (f "scaling" scaling) (f "c2w" c2w) fx fy width height step_size
        ndc_width ndc_height ndc_focal fast
  | call_volume_render_image data child extra_data offset scaling c2w fx fy
      width height step_size background_brightness format basis_dim ndc_width
      ndc_height ndc_focal fast weight_accum =>
      call_volume_render_image (f "data" data) (f "child" child)
        (f "extra_data" extra_data) (f "offset" offset) (f "scaling" scaling)
        (f "c2w" c2w) fx fy width height step_size background_brightness
        format basis_dim ndc_width ndc_height ndc_focal fast
        (f "weight_accum" weight_accum)
  | call_volume_render_backward data child extra_data grad_output origins dirs
      vdirs offset scaling step_size background_brightness format basis_dim =>
      call_volume_render_backward (f "data" data) (f "child" child)
        (f "extra_data" extra_data) (f "grad_output" grad_output)
        (f "origins" origins) (f "dirs" dirs) (f "vdirs" vdirs)
        (f "offset" offset) (f "scaling" scaling) step_size
        background_brightness format basis_dim
  | call_volume_render_image_backward data child extra_data grad_output offset
      scaling c2w fx fy width height step_size background_brightness format
      basis_dim ndc_width ndc_height ndc_focal =>
      call_volume_render_image_backward (f "data" data) (f "child" child)
        (f "extra_data" extra_data) (f "grad_output" grad_output)
        (f "offset" offset) (f "scaling" scaling) (f "c2w" c2w) fx fy width
        height step_size background_brightness format basis_dim ndc_width
        ndc_height ndc_focal
  end.

(** *** The interface as the design document words it *)

(** The operation names of the external interface (section 6; its item 6
    names two operations). *)
Definition interface_names : list string :=
  ["query_vertical"; "query_vertical_backward"; "assign_vertical";
   "volume_render"; "volume_render_image"; "volume_render_backward";
   "volume_render_image_backward"; "grid_weight_render"].

(** A ray batch supplies one origin, one direction and one view direction
    per ray: the three tensors have a first dimension and agree on it. *)
Definition one_per_ray (origins dirs vdirs : Tensor) : Prop :=
  exists n : Z,
    sizes origins !! 0%nat = Some n /\
    sizes dirs !! 0%nat = Some n /\
    sizes vdirs !! 0%nat = Some n.

(** A camera-to-world transform that is exactly 2-dimensional with second
    dimension 4. *)
Definition camera_matrix_shape (c2w : Tensor) : Prop :=
  exists rows, sizes c2w = [rows; 4].

End Svox.

(** ** The core behind the kernels *)

Module Core.

Definition Vec3 : Type := (Q * Q * Q)%type.

Definition vec_map2 (f : Q -> Q -> Q) (a b : Vec3) : Vec3 :=
  let '(ax, ay, az) := a in
  let '(bx, by_, bz) := b in
  (f ax bx, f ay by_, f az bz).

Definition vec_scale (s : Q) (a : Vec3) : Vec3 :=
  let '(ax, ay, az) := a in ((s * ax)%Q, (s * ay)%Q, (s * az)%Q).

Section Index.
Context {V : Type}.

(** Modelled from the spec: the Octree of section 3, whose arrays the
    kernels [_query_vertical_cuda] and [_assign_vertical_cuda] (declared but
    not defined in svox.cpp) index.  Branching factor [N]; the Data array of
    shape (M, N, N, N, K) as one K-channel row per cell slot; the Child array
    of shape (M, N, N, N) with the sentinel 0 for a leaf and otherwise the
    index of a descendant block; Offset and Scaling. *)
Record Octree := mkOctree {
  N : nat;
  data : list (list V);
  child : list Z;
  offset : Vec3;
  scaling : Vec3
}.

(** Row-major position of cell (i, j, k) of block [b] in the flat arrays. *)
Definition slot (n b i j k : nat) : nat :=
  (((b * n + i) * n + j) * n + k)%nat.

(** Modelled from the spec: step (1) of the traversal primitive (4.1),
    one coordinate of floor(p * N) clamped to [0, N-1]. *)
Definition cell_coord (n : nat) (x : Q) : nat :=
  Z.to_nat
    (Z.max 0 (Z.min (Z.of_nat n - 1) (Qfloor (x * inject_Z (Z.of_nat n))))).

(** Modelled from the spec: step (4), p * N - floor(p * N). *)
Definition rescale (n : nat) (x : Q) : Q :=
  (x * inject_Z (Z.of_nat n)
   - inject_Z (Qfloor (x * inject_Z (Z.of_nat n))))%Q.

(** Modelled from the spec: the leaf descriptor of 4.1 and 4.2, the
    resolved block and cell with the remaining fractional offset and the
    cell's side length. *)
Record Leaf := mkLeaf {
  leaf_block : nat;
  leaf_cell : nat * nat * nat;
  leaf_frac : Vec3;
  leaf_side : Q
}.

Definition leaf_slot (t : Octree) (l : Leaf) : nat :=
  let '(i, j, k) := leaf_cell l in slot (N t) (leaf_block l) i j k.

(** Modelled from the spec: the traversal primitive of 4.1, missing from
    src/ with the CUDA kernels.  [fuel] is the number of descents still
    allowed; [None] is the fatal CorruptStructure fault (depth bound
    exceeded, or a Child entry that is not a block of the arrays). *)
Fixpoint traverse (t : Octree) (fuel : nat) (b : nat) (p : Vec3) (side : Q)
  : option Leaf :=
  let '(x, y, z) := p in
  let i := cell_coord (N t) x in
  let j := cell_coord (N t) y in
  let k := cell_coord (N t) z in
  let p' := (rescale (N t) x, rescale (N t) y, rescale (N t) z) in
  let side' := (side / inject_Z (Z.of_nat (N t)))%Q in
  match child t !! slot (N t) b i j k with
  | None => None
  | Some c =>
      if c =? 0 then Some (mkLeaf b (i, j, k) p' side')
      else if c <? 0 then None
      else match fuel with
           | O => None
           | S fuel' => traverse t fuel' (Z.to_nat c) p' side'
           end
  end.

(** Modelled from the spec: the hard maximum-depth bound of 4.1, whose
    value the spec does not give. *)
Variable max_depth : nat.

(** Modelled from the spec: Offset and Scaling carry a normalised
    coordinate into the root block's frame. *)
Definition to_root (t : Octree) (p : Vec3) : Vec3 :=
  vec_map2 Qplus (offset t) (vec_map2 Qmult (scaling t) p).

(** Modelled from the spec: the traversal primitive applied to a
    normalised point, starting at the root block. *)
Definition resolve (t : Octree) (p : Vec3) : option Leaf :=
  traverse t max_depth 0 (to_root t p) 1.

(** The slot a point is read from or written to. *)
Definition target (t : Octree) (p : Vec3) : option nat :=
  leaf_slot t <$> resolve t p.

(** Two trees with the same index: only the payload may differ. *)
Definition same_index (t t' : Octree) : Prop :=
  N t = N t' /\ child t = child t' /\ offset t = offset t' /\
  scaling t = scaling t'.

(** Modelled from the spec: Query of 4.2, the body of
    [_query_vertical_cuda]: per point, the payload row at the resolved leaf
    and the leaf descriptor. *)
Definition query_point (t : Octree) (p : Vec3) : option (list V * Leaf) :=
  l ← resolve t p ;
  row ← data t !! leaf_slot t l ;
  Some (row, l).

(** Modelled from the spec: Query over the Q input points, returning the
    values and the leaf context. *)
Definition query (t : Octree) (ps : list Vec3)
  : option (list (list V) * list Leaf) :=
  rs ← mapM (query_point t) ps ; Some (rs.*1, rs.*2).

(** Modelled from the spec: Assign of 4.2, the body of
    [_assign_vertical_cuda]: per point, overwrite the payload row at the
    resolved leaf.  The batch is folded in order, one schedule of the
    parallel kernel; the spec leaves overlapping targets unspecified. *)
Definition assign_point (t : Octree) (item : Vec3 * list V) : option Octree :=
  l ← resolve t item.1 ;
  if decide (leaf_slot t l < length (data t))%nat
  then Some (mkOctree (N t) (<[leaf_slot t l := item.2]> (data t)) (child t)
               (offset t) (scaling t))
  else None.

(** Modelled from the spec: Assign over the Q (point, value row) pairs. *)
Fixpoint assign (t : Octree) (items : list (Vec3 * list V)) : option Octree :=
  match items with
  | [] => Some t
  | item :: rest => t' ← assign_point t item ; assign t' rest
  end.

(** The cells of one block. *)
Definition cells (n : nat) : list (nat * nat * nat) :=
  i ← seq 0 n ; j ← seq 0 n ; k ← seq 0 n ; [(i, j, k)].

(** Modelled from the spec: the Child-array invariant of section 3, below
    block [b]: every cell is a leaf or names a block of the arrays whose
    subtree fits the remaining depth. *)
Fixpoint depth_ok (t : Octree) (fuel : nat) (b : nat) : bool :=
  forallb
    (fun '(i, j, k) =>
       match child t !! slot (N t) b i j k with
       | None => false
       | Some c =>
           (c =? 0) ||
           ((0 <? c) &&
            match fuel with
            | O => false
            | S fuel' => depth_ok t fuel' (Z.to_nat c)
            end)
       end)
    (cells (N t)).

(** Modelled from the spec: a tree that meets the invariants of section 3,
    with a positive branching factor and Data and Child arrays over the
    same cells. *)
Definition well_formed (t : Octree) : bool :=
  (0 <? N t)%nat && depth_ok t max_depth 0 &&
  (length (data t) =? length (child t))%nat.

End Index.

Arguments Octree V : clear implicits.

(** *** Ray compositing *)

#[export] Instance Rlt_decision (x y : R) : Decision (x < y)%R := Rlt_dec x y.

(** Modelled from the spec: a Ray of section 3. *)
Record Ray := mkRay {
  origin : Vec3;
  dir : Vec3;
  vdir : Vec3
}.

(** Modelled from the spec: the running state of one ray in 4.3, its
    transmittance, the per-channel output colour, and the per-cell weight
    accumulation buffer. *)
Record RayState := mkRayState {
  transmittance : R;
  colour : list R;
  weights : list R
}.

(** Modelled from the spec: what a march yields, the last state, the
    transmittance after each step taken, and whether the early exit
    fired. *)
Record Outcome := mkOutcome {
  final : RayState;
  history : list R;
  occluded : bool
}.

Section Render.

Variable max_depth : nat.

(** The payload decoder selected by the layout, basis size and auxiliary
    coefficients: density and colour of a payload row seen from a view
    direction.  The spec leaves the channel layout open. *)
Variable decode : list R -> Vec3 -> R * list R.

(** Entry and exit parameters of a ray (origin, direction) through the
    index's unit cube; the spec does not fix how they are computed. *)
Variable span : Vec3 -> Vec3 -> Q * Q.

(** The small fixed early-exit threshold, and the number of output
    channels. *)
Variable threshold : R.
Variable out_dim : nat.

Variable step_size : Q.
Variable background_brightness : R.
Variable fast : bool.

(** Modelled from the spec: the sample point of a ray at parameter [tq]. *)
Definition point_at (r : Ray) (tq : Q) : Vec3 :=
  vec_map2 Qplus (origin r) (vec_scale tq (dir r)).

(** Modelled from the spec: the fixed-step schedule of 4.3, the ray
    parameters tmin, tmin + step, ... below tmax.  A step size that is not
    positive is outside the operation's precondition; no sample is taken. *)
Definition sample_ts (r : Ray) : list Q :=
  let '(tmin, tmax) := span (origin r) (dir r) in
  let n := Z.to_nat (Qceiling ((tmax - tmin) / step_size)) in
  map (fun k : nat => (tmin + inject_Z (Z.of_nat k) * step_size)%Q) (seq 0 n).

(** Modelled from the spec: the step alpha of 4.3, 1 - exp(-sigma * step). *)
Definition step_alpha (sigma : R) : R :=
  (1 - exp (- (sigma * Q2R step_size)))%R.

(** Modelled from the spec: one sample of the compositing recursion of 4.3
    (the body of [_volume_render_cuda]'s per-ray loop): resolve the sample
    point, decode density and colour, add transmittance * alpha * c to the
    output and transmittance * alpha to the leaf's weight slot, and scale
    the transmittance by (1 - alpha). *)
Definition composite (t : Octree R) (r : Ray) (s : RayState) (tq : Q)
  : option RayState :=
  l ← resolve max_depth t (point_at r tq) ;
  row ← data t !! leaf_slot t l ;
  let '(sigma, c) := decode row (vdir r) in
  let alpha := step_alpha sigma in
  let w := (transmittance s * alpha)%R in
  Some (mkRayState
          (transmittance s * (1 - alpha))%R
          (imap (fun ch o => (o + w * nth ch c 0)%R) (colour s))
          (alter (fun a => (a + w)%R) (leaf_slot t l) (weights s))).

(** Modelled from the spec: the march of 4.3 over the remaining samples,
    stopping once the transmittance falls below the threshold when the
    early-exit flag is set. *)
Fixpoint march (t : Octree R) (r : Ray) (ts : list Q) (s : RayState)
  : option Outcome :=
  match ts with
  | [] => Some (mkOutcome s [] false)
  | tq :: ts' =>
      s' ← composite t r s tq ;
      if fast && bool_decide (transmittance s' < threshold)%R
      then Some (mkOutcome s' [transmittance s'] true)
      else o ← march t r ts' s' ;
           Some (mkOutcome (final o) (transmittance s' :: history o)
                   (occluded o))
  end.

(** Modelled from the spec: one ray of [_volume_render_cuda].  Transmittance
    left on leaving the volume contributes transmittance * background; a ray
    cut short by the early exit counts as fully occluded. *)
Definition render_ray (t : Octree R) (wbuf : list R) (r : Ray)
  : option (list R * list R) :=
  o ← march t r (sample_ts r) (mkRayState 1 (repeat 0%R out_dim) wbuf) ;
  let T := transmittance (final o) in
  let out :=
    if occluded o then colour (final o)
    else map (fun c => (c + T * background_brightness)%R) (colour (final o)) in
  Some (out, weights (final o)).

(** Modelled from the spec: [_volume_render_cuda] over a ray batch; the
    weight buffer is shared by all rays and accumulates across them. *)
Fixpoint volume_render (t : Octree R) (wbuf : list R) (rays : list Ray)
  : option (list (list R) * list R) :=
  match rays with
  | [] => Some ([], wbuf)
  | r :: rest =>
      '(out, wbuf') ← render_ray t wbuf r ;
      '(outs, wbuf'') ← volume_render t wbuf' rest ;
      Some (out :: outs, wbuf'')
  end.

(** A ray whose march meets only cells of zero density. *)
Definition zero_density (t : Octree R) (r : Ray) : Prop :=
  forall tq l row,
    tq ∈ sample_ts r ->
    resolve max_depth t (point_at r tq) = Some l ->
    data t !! leaf_slot t l = Some row ->
    (decode row (vdir r)).1 = 0%R.





End Render.

End Core.

(** ** Concrete inputs used by the examples *)

Module Examples.
Import Torch Svox.

(** A contiguous float tensor on CUDA device 0 with the given shape. *)
Definition cuda_float (shape : list Z) (st : nat) : Tensor :=
  mkTensor (CUDA 0) true shape kFloat st.

(** The same tensor left in host memory. *)
Definition cpu_float (shape : list Z) (st : nat) : Tensor :=
  mkTensor CPU true shape kFloat st.

(** Kernels that allocate nothing and return an empty result; enough to run
    the wrappers on concrete arguments. *)
Definition idle_kernels : Kernels :=
  let r := cuda_float [0] 0 in
  mkKernels
    (fun _ _ _ _ _ => mret (r, r))
    (fun _ _ _ _ _ => mret r)
    (fun _ _ _ _ _ _ => mret tt)
    (fun _ _ _ _ _ _ _ _ _ _ _ _ _ _ => mret r)
    (fun _ _ _ _ _ _ _ _ _ _ _ _ _ _ _ _ _ _ _ => mret r)
    (fun _ _ _ _ _ _ _ _ _ _ _ _ _ => mret r)
    (fun _ _ _ _ _ _ _ _ _ _ _ _ _ _ _ _ _ _ => mret r)
    (fun _ _ _ _ _ _ _ _ _ _ _ _ _ => mret [r]).

Definition empty_world : World := mkWorld ∅ 0.

(** The concrete scenario of the design document (section 8): one block,
    branching 2, one density channel, Data[0,1,1,1,0] = 5, every cell a
    leaf. *)
Definition scenario_tree : Core.Octree Q :=
  Core.mkOctree 2
    [[0%Q]; [0%Q]; [0%Q]; [0%Q]; [0%Q]; [0%Q]; [0%Q]; [5%Q]]
    [0; 0; 0; 0; 0; 0; 0; 0]
    (0%Q, 0%Q, 0%Q) (1%Q, 1%Q, 1%Q).

(** A two-level tree: cell (0,1,1) of the root is subdivided by block 1. *)
Definition nested_tree : Core.Octree Q :=
  Core.mkOctree 2
    [[0%Q]; [0%Q]; [0%Q]; [0%Q]; [0%Q]; [0%Q]; [0%Q]; [0%Q];
     [0%Q]; [0%Q]; [0%Q]; [0%Q]; [0%Q]; [0%Q]; [0%Q]; [0%Q]]
    [0; 0; 0; 1; 0; 0; 0; 0; 0; 0; 0; 0; 0; 0; 0; 0]
    (0%Q, 0%Q, 0%Q) (1%Q, 1%Q, 1%Q).

(** The depth bound used in the examples. *)
Definition depth_bound : nat := 4.

(** The same one-block index with real-valued densities. *)
Definition density_tree (d0 d1 d2 d3 d4 d5 d6 d7 : R) : Core.Octree R :=
  Core.mkOctree 2
    [[d0]; [d1]; [d2]; [d3]; [d4]; [d5]; [d6]; [d7]]
    [0; 0; 0; 0; 0; 0; 0; 0]
    (0%Q, 0%Q, 0%Q) (1%Q, 1%Q, 1%Q).

Definition empty_tree : Core.Octree R :=
  density_tree 0 0 0 0 0 0 0 0.

Definition scenario_density_tree : Core.Octree R :=
  density_tree 0 0 0 0 0 0 0 5.

(** The density-only layout (K = 1): channel 0 is the density and there is
    no colour. *)
Definition density_only (row : list R) (view : Core.Vec3) : R * list R :=
  (nth 0 row 0%R, []).

(** Every ray is taken to cross the unit cube for parameters in [0, 1). *)
Definition unit_span (o d : Core.Vec3) : Q * Q := (0%Q, 1%Q).

(** A ray along the x axis through the cells (0,1,1) and (1,1,1). *)
Definition x_ray : Core.Ray :=
  Core.mkRay (0%Q, (3 # 4)%Q, (3 # 4)%Q) (1%Q, 0%Q, 0%Q) (1%Q, 0%Q, 0%Q).

End Examples.

(** ** Properties of the boundary layer *)

Module SvoxFacts.
Import Torch Svox.

Lemma gated_refl {A} (b1 b2 : M A) : gated true b1 b2 b1 b2.
Proof. by intros w. Qed.

Lemma gated_TORCH_CHECK {A} b msg ok (k1 k2 b1 b2 : M A) :
  gated ok k1 k2 b1 b2 ->
  gated (b && ok) (TORCH_CHECK b msg ;; k1) (TORCH_CHECK b msg ;; k2) b1 b2.
Proof.
  intros Hk w. destruct b; simpl; [apply Hk|]. by eexists.
Qed.

Lemma gated_CHECK_INPUT {A} name x ok (k1 k2 b1 b2 : M A) :
  gated ok k1 k2 b1 b2 ->
  gated (input_ok x && ok)
    (CHECK_INPUT name x ;; k1) (CHECK_INPUT name x ;; k2) b1 b2.
Proof.
  intros Hk w. unfold input_ok, CHECK_INPUT, CHECK_CUDA, CHECK_CONTIGUOUS.
  destruct (is_cuda x), (is_contiguous x); simpl; try by eexists.
  apply Hk.
Qed.

Lemma gated_CHECK_SAME_SIZE0 {A} a b msg ok (k1 k2 b1 b2 : M A) :
  gated ok k1 k2 b1 b2 ->
  gated (same_size0 a b && ok)
    (CHECK_SAME_SIZE0 a b msg ;; k1) (CHECK_SAME_SIZE0 a b msg ;; k2) b1 b2.
Proof.
  intros Hk w.
  unfold same_size0, CHECK_SAME_SIZE0, size, mbind, M_bind, mret, M_ret, throw.
  destruct (sizes a !! 0%nat) as [na|]; simpl; [|by eexists].
  destruct (sizes b !! 0%nat) as [nb|]; simpl; [|by eexists].
  destruct (na =? nb); simpl; [apply Hk|by eexists].
Qed.

Lemma gated_CHECK_SIZE1_IS_4 {A} c2w ok (k1 k2 b1 b2 : M A) :
  gated ok k1 k2 b1 b2 ->
  gated (size1_is_4 c2w && ok)
    (CHECK_SIZE1_IS_4 c2w ;; k1) (CHECK_SIZE1_IS_4 c2w ;; k2) b1 b2.
Proof.
  intros Hk w.
  unfold size1_is_4, CHECK_SIZE1_IS_4, size, mbind, M_bind, mret, M_ret, throw.
  destruct (sizes c2w !! 1%nat) as [n|]; simpl; [|by eexists].
  destruct (n =? 4); simpl; [apply Hk|by eexists].
Qed.

Lemma gated_ext {A} ok ok' (m1 m2 b1 b2 : M A) :
  ok = ok' -> gated ok m1 m2 b1 b2 -> gated ok' m1 m2 b1 b2.
Proof. by intros ->. Qed.

Ltac gate :=
  repeat first
    [ apply gated_CHECK_INPUT
    | apply gated_CHECK_SAME_SIZE0
    | apply gated_CHECK_SIZE1_IS_4
    | apply gated_TORCH_CHECK ];
  apply gated_refl.

(** Every wrapper is its checks, in order, in front of its launch. *)
Lemma run_gated K K' c :
  gated (accepts c) (run K c) (run K' c) (launch K c) (launch K' c).
Proof.
  destruct c; cbn [run launch accepts]; unfold c2w_ok;
    (eapply gated_ext; [|gate]);
    rewrite ?andb_true_r, <- ?andb_assoc; reflexivity.
Qed.

Lemma run_accept K c w : accepts c = true -> run K c w = launch K c w.
Proof. intros H. generalize (run_gated K K c w). rewrite H. tauto. Qed.

Lemma run_reject K c w :
  accepts c = false ->
  exists e, run K c w = (inl e, w) /\ forall K', run K' c w = (inl e, w).
Proof.
  intros H. generalize (run_gated K K c w). rewrite H. intros [e [He _]].
  exists e. split; [done|]. intros K'.
  generalize (run_gated K K' c w). rewrite H. intros [e' [He1 He2]].
  congruence.
Qed.

Lemma rejected_intro c w : accepts c = false -> rejected c w.
Proof.
  intros H. destruct (run_reject Examples.idle_kernels c w H) as [e [_ He]].
  by exists e.
Qed.

(** C4. The three vertical operations reject, before any kernel work, an
    [indices] tensor that is not 2-dimensional or not floating-point.  A
    2-dimensional, floating-point, CUDA-resident, contiguous [indices] is
    never the cause of a rejection: [query_vertical] then hands the call to
    [_query_vertical_cuda], unless one of its other four tensors fails its
    own [CHECK_INPUT]. *)
Theorem vertical_indices_check (w : World) (indices : Tensor) :
  (dim indices <> 2 \/ is_floating_point indices = false ->
   (forall data child offset scaling,
      rejected (call_query_vertical data child indices offset scaling) w) /\
   (forall child grad_output offset scaling,
      rejected
        (call_query_vertical_backward child indices grad_output offset scaling)
        w) /\
   (forall data child values offset scaling,
      rejected
        (call_assign_vertical data child indices values offset scaling) w)) /\
  (dim indices = 2 -> is_floating_point indices = true ->
   is_cuda indices = true -> is_contiguous indices = true ->
   forall K data child offset scaling,
     if input_ok data && input_ok child && input_ok offset && input_ok scaling
     then
       query_vertical K data child indices offset scaling w =
       OptionalCUDAGuard (device_of data)
         (_query_vertical_cuda K data child indices offset scaling) w
     else
       rejected (call_query_vertical data child indices offset scaling) w).
Proof.
  split.
  - intros Hbad.
    assert ((dim indices =? 2) && is_floating_point indices = false) as Hb.
    { destruct Hbad as [Hd | Hf].
      - apply Z.eqb_neq in Hd. by rewrite Hd.
      - rewrite Hf. apply andb_false_r. }
    apply andb_false_iff in Hb.
    repeat split; intros; apply rejected_intro; cbn [accepts];
      destruct Hb as [-> | ->]; rewrite ?andb_false_r; reflexivity.
  - intros Hd Hf Hc Hg K data child offset scaling.
    apply Z.eqb_eq in Hd.
    assert (accepts (call_query_vertical data child indices offset scaling) =
            input_ok data && input_ok child && input_ok offset &&
            input_ok scaling) as Hacc.
    { cbn [accepts]. unfold input_ok at 3. rewrite Hc, Hg, Hd, Hf.
      by destruct (input_ok data), (input_ok child), (input_ok offset),
           (input_ok scaling). }
    rewrite <- Hacc.
    destruct (accepts _) eqn:Ha.
    + by apply (run_accept K
                  (call_query_vertical data child indices offset scaling)).
    + by apply rejected_intro.
Qed.

Lemma vertical_indices_check_witness :
  rejected
    (call_query_vertical (Examples.cuda_float [1; 2; 2; 2; 1] 0)
       (Examples.cuda_float [1; 2; 2; 2] 1) (Examples.cuda_float [3] 2)
       (Examples.cuda_float [3] 3) (Examples.cuda_float [3] 4))
    Examples.empty_world /\
  query_vertical Examples.idle_kernels (Examples.cuda_float [1; 2; 2; 2; 1] 0)
    (Examples.cuda_float [1; 2; 2; 2] 1) (Examples.cuda_float [1; 3] 2)
    (Examples.cuda_float [3] 3) (Examples.cuda_float [3] 4)
    Examples.empty_world =
  (inr (Examples.cuda_float [0] 0, Examples.cuda_float [0] 0),
   Examples.empty_world).
Proof.
  split.
  - apply (proj1 (vertical_indices_check Examples.empty_world
                    (Examples.cuda_float [3] 2))).
    left. discriminate.
  - etransitivity;
      [ exact (proj2 (vertical_indices_check Examples.empty_world
                        (Examples.cuda_float [1; 3] 2))
                 eq_refl eq_refl eq_refl eq_refl Examples.idle_kernels
                 (Examples.cuda_float [1; 2; 2; 2; 1] 0)
                 (Examples.cuda_float [1; 2; 2; 2] 1)
                 (Examples.cuda_float [3] 3) (Examples.cuda_float [3] 4))
      | reflexivity ].
Defined.

(** C5. In every exported operation the checks come before the launch: a
    call that meets all of them continues as the guarded kernel launch, and
    a call that fails one throws to the caller without producing a result,
    without consulting the kernel and with the world (every buffer, and the
    current device) exactly as it was. *)
Theorem checks_precede_kernel (K : Kernels) (c : Call) (w : World) :
  (accepts c = true -> run K c w = launch K c w) /\
  (accepts c = false ->
   exists e, run K c w = (inl e, w) /\ forall K', run K' c w = (inl e, w)).
Proof.
  split; [apply run_accept | apply run_reject].
Qed.

Lemma checks_precede_kernel_witness :
  exists e,
    run Examples.idle_kernels
      (call_assign_vertical (Examples.cpu_float [1; 2; 2; 2; 1] 0)
         (Examples.cuda_float [1; 2; 2; 2] 1) (Examples.cuda_float [1; 3] 2)
         (Examples.cuda_float [1; 1] 3) (Examples.cuda_float [3] 4)
         (Examples.cuda_float [3] 5))
      Examples.empty_world = (inl e, Examples.empty_world).
Proof.
  destruct (proj2 (checks_precede_kernel Examples.idle_kernels
                     (call_assign_vertical
                        (Examples.cpu_float [1; 2; 2; 2; 1] 0)
                        (Examples.cuda_float [1; 2; 2; 2] 1)
                        (Examples.cuda_float [1; 3] 2)
                        (Examples.cuda_float [1; 1] 3)
                        (Examples.cuda_float [3] 4)
                        (Examples.cuda_float [3] 5))
                     Examples.empty_world) eq_refl) as [e [He _]].
  exists e. exact He.
Defined.

Ltac reject_by H :=
  apply rejected_intro; cbn [accepts]; rewrite ?H;
  repeat (rewrite andb_false_r || simpl); reflexivity.

(** C6 as stated fails: [volume_render] launches its kernel with a
    [weight_accum] that lives in host memory and is not contiguous. *)
Lemma weight_accum_not_validated :
  let wa := mkTensor CPU false [8] kFloat 9 in
  let c :=
    call_volume_render (Examples.cuda_float [1; 2; 2; 2; 4] 0)
      (Examples.cuda_float [1; 2; 2; 2] 1) (Examples.cuda_float [0] 2)
      (Examples.cuda_float [1; 3] 3) (Examples.cuda_float [1; 3] 4)
      (Examples.cuda_float [1; 3] 5) (Examples.cuda_float [3] 6)
      (Examples.cuda_float [3] 7) (1 # 100)%Q 1%Q 0 0 false wa in
  ("weight_accum", wa) ∈ tensor_args c /\
  is_cuda wa = false /\ is_contiguous wa = false /\
  (forall K w, run K c w = launch K c w) /\
  run Examples.idle_kernels c Examples.empty_world =
  (inr (Examples.cuda_float [0] 0), Examples.empty_world).
Proof.
  cbv zeta. split; [cbn [tensor_args]; set_solver|].
  repeat split.
Qed.

(** C6, amended. In every exported operation each tensor argument other
    than [weight_accum], and other than [offset] in the camera-driven
    operations, is validated to be CUDA-resident and contiguous before any
    launch: a call in which such an argument is not is rejected. *)
Theorem validated_arguments (c : Call) (w : World) (name : string)
  (x : Tensor) :
  (name, x) ∈ tensor_args c ->
  name <> "weight_accum" ->
  (name = "offset" -> camera_driven c = false) ->
  input_ok x = false ->
  rejected c w.
Proof.
  intros Hin Hwa Hoff Hx.
  destruct c; cbn [tensor_args camera_driven] in *;
    repeat (apply elem_of_cons in Hin as [Heq | Hin];
            [ injection Heq as -> -> ;
              first [ done
                    | discriminate (Hoff eq_refl)
                    | reject_by Hx ]
            | ]);
    by apply elem_of_nil in Hin.
Qed.

Lemma validated_arguments_witness :
  rejected
    (call_grid_weight_render (Examples.cuda_float [4; 4; 4] 0)
       (Examples.cuda_float [3] 1) (Examples.cpu_float [3] 2)
       (Examples.cuda_float [4; 4] 3) 1%Q 1%Q 8 8 (1 # 100)%Q 0 0 1%Q false)
    Examples.empty_world.
Proof.
  apply (validated_arguments _ _ "scaling" (Examples.cpu_float [3] 2)).
  - cbn [tensor_args]. set_solver.
  - discriminate.
  - discriminate.
  - reflexivity.
Defined.

Lemma same_size0_one_per_ray origins dirs vdirs :
  same_size0 dirs vdirs && same_size0 dirs origins = true <->
  one_per_ray origins dirs vdirs.
Proof.
  unfold same_size0, one_per_ray. split.
  - destruct (sizes dirs !! 0%nat) as [nd|]; [|done].
    destruct (sizes vdirs !! 0%nat) as [nv|]; [|done].
    destruct (sizes origins !! 0%nat) as [no|]; [|by rewrite andb_false_r].
    intros [Hv Ho]%andb_true_iff. apply Z.eqb_eq in Hv, Ho. subst.
    by exists no.
  - intros [n [-> [-> ->]]]. by rewrite Z.eqb_refl.
Qed.

(** C7. [volume_render] and [volume_render_backward] reject a ray batch in
    which origins, dirs and vdirs do not agree on their first dimension;
    when the three agree both size checks pass, and the call goes on to the
    kernel once the remaining checks pass as well. *)
Theorem ray_batch_check (w : World)
  (data child extra_data origins dirs vdirs offset scaling : Tensor) :
  (~ one_per_ray origins dirs vdirs ->
   (forall step_size background_brightness format basis_dim fast weight_accum,
      rejected
        (call_volume_render data child extra_data origins dirs vdirs offset
           scaling step_size background_brightness format basis_dim fast
           weight_accum) w) /\
   (forall grad_output step_size background_brightness format basis_dim,
      rejected
        (call_volume_render_backward data child extra_data grad_output origins
           dirs vdirs offset scaling step_size background_brightness format
           basis_dim) w)) /\
  (one_per_ray origins dirs vdirs ->
   same_size0 dirs vdirs = true /\ same_size0 dirs origins = true /\
   (input_ok data = true -> input_ok child = true ->
    input_ok extra_data = true -> input_ok origins = true ->
    input_ok dirs = true -> input_ok vdirs = true ->
    input_ok offset = true -> input_ok scaling = true ->
    (forall K step_size background_brightness format basis_dim fast
            weight_accum,
       volume_render K data child extra_data origins dirs vdirs offset scaling
         step_size background_brightness format basis_dim fast weight_accum w =
       OptionalCUDAGuard (device_of data)
         (_volume_render_cuda K data child extra_data origins dirs vdirs
            offset scaling step_size background_brightness format basis_dim
            fast weight_accum) w) /\
    (forall K grad_output step_size background_brightness format basis_dim,
       input_ok grad_output = true -> ndimension grad_output = 2 ->
       volume_render_backward K data child extra_data grad_output origins dirs
         vdirs offset scaling step_size background_brightness format
         basis_dim w =
       OptionalCUDAGuard (device_of data)
         (_volume_render_backward_cuda K data child extra_data grad_output
            origins dirs vdirs offset scaling step_size
            background_brightness format basis_dim) w))).
Proof.
  split.
  - intros Hno.
    assert (same_size0 dirs vdirs && same_size0 dirs origins = false) as Hb.
    { apply not_true_is_false. by rewrite same_size0_one_per_ray. }
    split; intros; apply rejected_intro; cbn [accepts];
      rewrite <- !andb_assoc; rewrite ?Hb;
      repeat (rewrite andb_false_r || simpl); try reflexivity;
      rewrite (andb_assoc (same_size0 dirs vdirs)), Hb;
      repeat (rewrite andb_false_r || simpl); reflexivity.
  - intros [Hv Ho]%same_size0_one_per_ray%andb_true_iff.
    split; [done|]. split; [done|].
    intros Hd Hc He Hor Hdi Hvd Hof Hsc. split.
    + intros.
      apply (run_accept K (call_volume_render data child extra_data origins
                             dirs vdirs offset scaling step_size
                             background_brightness format basis_dim fast
                             weight_accum)).
      cbn [accepts]. by rewrite Hd, Hc, He, Hor, Hdi, Hvd, Hof, Hsc, Hv, Ho.
    + intros K go ? ? ? ? Hgo Hdim.
      apply (run_accept K (call_volume_render_backward data child extra_data
                             go origins dirs vdirs offset scaling step_size
                             background_brightness format basis_dim)).
      cbn [accepts]. rewrite Hd, Hc, He, Hor, Hdi, Hvd, Hof, Hsc, Hv, Ho, Hgo.
      apply Z.eqb_eq in Hdim. by rewrite Hdim.
Qed.

Lemma ray_batch_check_witness :
  rejected
    (call_volume_render (Examples.cuda_float [1; 2; 2; 2; 4] 0)
       (Examples.cuda_float [1; 2; 2; 2] 1) (Examples.cuda_float [0] 2)
       (Examples.cuda_float [2; 3] 3) (Examples.cuda_float [5; 3] 4)
       (Examples.cuda_float [5; 3] 5) (Examples.cuda_float [3] 6)
       (Examples.cuda_float [3] 7) (1 # 100)%Q 1%Q 0 0 false
       (Examples.cuda_float [8] 8))
    Examples.empty_world /\
  volume_render Examples.idle_kernels (Examples.cuda_float [1; 2; 2; 2; 4] 0)
    (Examples.cuda_float [1; 2; 2; 2] 1) (Examples.cuda_float [0] 2)
    (Examples.cuda_float [5; 3] 3) (Examples.cuda_float [5; 3] 4)
    (Examples.cuda_float [5; 3] 5) (Examples.cuda_float [3] 6)
    (Examples.cuda_float [3] 7) (1 # 100)%Q 1%Q 0 0 false
    (Examples.cuda_float [8] 8) Examples.empty_world =
  (inr (Examples.cuda_float [0] 0), Examples.empty_world).
Proof.
  split.
  - refine (proj1 (proj1 (ray_batch_check Examples.empty_world
                    (Examples.cuda_float [1; 2; 2; 2; 4] 0)
                    (Examples.cuda_float [1; 2; 2; 2] 1)
                    (Examples.cuda_float [0] 2)
                    (Examples.cuda_float [2; 3] 3)
                    (Examples.cuda_float [5; 3] 4)
                    (Examples.cuda_float [5; 3] 5)
                    (Examples.cuda_float [3] 6)
                    (Examples.cuda_float [3] 7)) _) _ _ _ _ _ _).
    intros [n [Ho [Hd _]]]. cbn in Ho, Hd. congruence.
  -
    assert (one_per_ray (Examples.cuda_float [5; 3] 3)
              (Examples.cuda_float [5; 3] 4) (Examples.cuda_float [5; 3] 5))
      as Hone by (by exists 5).
    pose proof (proj2 (ray_batch_check Examples.empty_world
                       (Examples.cuda_float [1; 2; 2; 2; 4] 0)
                       (Examples.cuda_float [1; 2; 2; 2] 1)
                       (Examples.cuda_float [0] 2)
                       (Examples.cuda_float [5; 3] 3)
                       (Examples.cuda_float [5; 3] 4)
                       (Examples.cuda_float [5; 3] 5)
                       (Examples.cuda_float [3] 6)
                       (Examples.cuda_float [3] 7)) Hone) as [_ [_ Hgo]].
    specialize (Hgo eq_refl eq_refl eq_refl eq_refl
                  eq_refl eq_refl eq_refl eq_refl).
    destruct Hgo as [Hfwd _].
    etransitivity; [apply Hfwd|]. reflexivity.
Defined.

(** C8. The module binds exactly the eight names of the external interface,
    each to the wrapper of the same name, and nothing else. *)
Theorem exported_operations (K : Kernels) :
  def_name <$> PYBIND11_MODULE K = interface_names /\
  getattr (PYBIND11_MODULE K) "query_vertical" =
    Some (fn_query (query_vertical K)) /\
  getattr (PYBIND11_MODULE K) "query_vertical_backward" =
    Some (fn_query_backward (query_vertical_backward K)) /\
  getattr (PYBIND11_MODULE K) "assign_vertical" =
    Some (fn_assign (assign_vertical K)) /\
  getattr (PYBIND11_MODULE K) "volume_render" =
    Some (fn_render (volume_render K)) /\
  getattr (PYBIND11_MODULE K) "volume_render_image" =
    Some (fn_render_image (volume_render_image K)) /\
  getattr (PYBIND11_MODULE K) "volume_render_backward" =
    Some (fn_render_backward (volume_render_backward K)) /\
  getattr (PYBIND11_MODULE K) "volume_render_image_backward" =
    Some (fn_render_image_backward (volume_render_image_backward K)) /\
  getattr (PYBIND11_MODULE K) "grid_weight_render" =
    Some (fn_grid_weight (grid_weight_render K)) /\
  (forall name, name ∉ interface_names ->
                getattr (PYBIND11_MODULE K) name = None).
Proof.
  repeat (split; [reflexivity|]).
  intros name Hname. unfold getattr, PYBIND11_MODULE, m_def. cbn [app find].
  unfold interface_names in Hname.
  cbn [def_name].
  repeat match goal with
         | |- context [String.eqb ?a name] =>
             destruct (String.eqb_spec a name) as [<- | _];
             [ exfalso; apply Hname; apply list_elem_of_In; simpl; auto 10 | ]
         end.
  reflexivity.
Qed.

Lemma exported_operations_witness :
  getattr (PYBIND11_MODULE Examples.idle_kernels) "render" = None.
Proof.
  apply (proj2 (proj2 (proj2 (proj2 (proj2 (proj2 (proj2 (proj2 (proj2
           (exported_operations Examples.idle_kernels)))))))))).
  unfold interface_names. rewrite !not_elem_of_cons.
  repeat split; try discriminate. apply not_elem_of_nil.
Defined.

(** C9. [query_vertical_backward] puts no rank or dtype condition on
    [grad_output]: whatever its shape and element type, a CUDA-resident
    contiguous [grad_output] with valid [indices] reaches the kernel, unless
    one of child, offset and scaling fails its own [CHECK_INPUT].
    [volume_render_backward] rejects a [grad_output] that is not
    2-dimensional and [volume_render_image_backward] one that is not
    3-dimensional. *)
Theorem grad_output_constraints (w : World) (grad_output : Tensor) :
  (forall K child indices offset scaling index shape dtype st,
     input_ok indices = true ->
     dim indices = 2 -> is_floating_point indices = true ->
     let g := mkTensor (CUDA index) true shape dtype st in
     if input_ok child && input_ok offset && input_ok scaling
     then
       query_vertical_backward K child indices g offset scaling w =
       OptionalCUDAGuard (device_of g)
         (_query_vertical_backward_cuda K child indices g offset scaling) w
     else
       rejected
         (call_query_vertical_backward child indices g offset scaling) w) /\
  (ndimension grad_output <> 2 ->
   forall data child extra_data origins dirs vdirs offset scaling step_size
          background_brightness format basis_dim,
     rejected
       (call_volume_render_backward data child extra_data grad_output origins
          dirs vdirs offset scaling step_size background_brightness format
          basis_dim) w) /\
  (ndimension grad_output <> 3 ->
   forall data child extra_data offset scaling c2w fx fy width height
          step_size background_brightness format basis_dim ndc_width
          ndc_height ndc_focal,
     rejected
       (call_volume_render_image_backward data child extra_data grad_output
          offset scaling c2w fx fy width height step_size
          background_brightness format basis_dim ndc_width ndc_height
          ndc_focal) w).
Proof.
  split; [|split].
  - intros K child indices offset scaling index shape dtype st Hi Hd Hf g.
    apply Z.eqb_eq in Hd.
    assert (accepts
              (call_query_vertical_backward child indices g offset scaling) =
            input_ok child && input_ok offset && input_ok scaling) as Hacc.
    { cbn [accepts]. rewrite Hi, Hd, Hf.
      by destruct (input_ok child), (input_ok offset), (input_ok scaling). }
    rewrite <- Hacc. destruct (accepts _) eqn:Ha.
    + by apply (run_accept K
                  (call_query_vertical_backward child indices g offset
                     scaling)).
    + by apply rejected_intro.
  - intros Hd%Z.eqb_neq. intros. reject_by Hd.
  - intros Hd%Z.eqb_neq. intros. reject_by Hd.
Qed.

Lemma grad_output_constraints_witness :
  query_vertical_backward Examples.idle_kernels
    (Examples.cuda_float [1; 2; 2; 2] 0) (Examples.cuda_float [4; 3] 1)
    (mkTensor (CUDA 0) true [2; 3; 5; 7; 11] kLong 2)
    (Examples.cuda_float [3] 3) (Examples.cuda_float [3] 4)
    Examples.empty_world =
  (inr (Examples.cuda_float [0] 0), Examples.empty_world) /\
  rejected
    (call_volume_render_backward (Examples.cuda_float [1; 2; 2; 2; 4] 0)
       (Examples.cuda_float [1; 2; 2; 2] 1) (Examples.cuda_float [0] 2)
       (Examples.cuda_float [5; 3; 1] 9)
       (Examples.cuda_float [5; 3] 3) (Examples.cuda_float [5; 3] 4)
       (Examples.cuda_float [5; 3] 5) (Examples.cuda_float [3] 6)
       (Examples.cuda_float [3] 7) (1 # 100)%Q 1%Q 0 0)
    Examples.empty_world.
Proof.
  split.
  - etransitivity;
      [ exact (proj1 (grad_output_constraints Examples.empty_world
                        (Examples.cuda_float [5; 3; 1] 9))
                 Examples.idle_kernels (Examples.cuda_float [1; 2; 2; 2] 0)
                 (Examples.cuda_float [4; 3] 1) (Examples.cuda_float [3] 3)
                 (Examples.cuda_float [3] 4) 0 [2; 3; 5; 7; 11] kLong 2%nat
                 eq_refl eq_refl eq_refl)
      | reflexivity ].
  - refine (proj1 (proj2 (grad_output_constraints Examples.empty_world
                            (Examples.cuda_float [5; 3; 1] 9)))
              _ _ _ _ _ _ _ _ _ _ _ _ _).
    discriminate.
Defined.

Lemma c2w_ok_shape c2w : c2w_ok c2w = true <-> camera_matrix_shape c2w.
Proof.
  unfold c2w_ok, size1_is_4, camera_matrix_shape, ndimension, dim.
  destruct (sizes c2w) as [|r [|n [|x l]]]; cbn.
  - split; [done|]. by intros [? ?].
  - split; [done|]. by intros [? ?].
  - split.
    + intros ->%Z.eqb_eq. by exists r.
    + intros [r' [= -> ->]]. done.
  - split; [|by intros [? ?]].
    intros [H _]%andb_true_iff. apply Z.eqb_eq in H. lia.
Qed.

(** C10. Each camera-driven operation rejects a [c2w] that is not exactly
    2-dimensional with second dimension 4; a [c2w] of that shape passes the
    two shape checks, and the call goes on to the kernel once the remaining
    checks pass as well. *)
Theorem c2w_shape_check (w : World) (c2w : Tensor) :
  (~ camera_matrix_shape c2w ->
   (forall data child extra_data offset scaling fx fy width height step_size
           background_brightness format basis_dim ndc_width ndc_height
           ndc_focal fast weight_accum,
      rejected
        (call_volume_render_image data child extra_data offset scaling c2w fx
           fy width height step_size background_brightness format basis_dim
           ndc_width ndc_height ndc_focal fast weight_accum) w) /\
   (forall data child extra_data grad_output offset scaling fx fy width height
           step_size background_brightness format basis_dim ndc_width
           ndc_height ndc_focal,
      rejected
        (call_volume_render_image_backward data child extra_data grad_output
           offset scaling c2w fx fy width height step_size
           background_brightness format basis_dim ndc_width ndc_height
           ndc_focal) w) /\
   (forall data offset scaling fx fy width height step_size ndc_width
           ndc_height ndc_focal fast,
      rejected
        (call_grid_weight_render data offset scaling c2w fx fy width height
           step_size ndc_width ndc_height ndc_focal fast) w)) /\
  (camera_matrix_shape c2w ->
   ndimension c2w = 2 /\ size1_is_4 c2w = true /\
   (forall K data child extra_data offset scaling fx fy width height step_size
           background_brightness format basis_dim ndc_width ndc_height
           ndc_focal fast weight_accum,
      input_ok data = true -> input_ok child = true ->
      input_ok extra_data = true -> input_ok c2w = true ->
      input_ok scaling = true ->
      run K
        (call_volume_render_image data child extra_data offset scaling c2w fx
           fy width height step_size background_brightness format basis_dim
           ndc_width ndc_height ndc_focal fast weight_accum) w =
      launch K
        (call_volume_render_image data child extra_data offset scaling c2w fx
           fy width height step_size background_brightness format basis_dim
           ndc_width ndc_height ndc_focal fast weight_accum) w) /\
   (forall K data child extra_data grad_output offset scaling fx fy width
           height step_size background_brightness format basis_dim ndc_width
           ndc_height ndc_focal,
      input_ok data = true -> input_ok child = true ->
      input_ok extra_data = true -> input_ok grad_output = true ->
      input_ok c2w = true -> input_ok scaling = true ->
      ndimension grad_output = 3 ->
      run K
        (call_volume_render_image_backward data child extra_data grad_output
           offset scaling c2w fx fy width height step_size
           background_brightness format basis_dim ndc_width ndc_height
           ndc_focal) w =
      launch K
        (call_volume_render_image_backward data child extra_data grad_output
           offset scaling c2w fx fy width height step_size
           background_brightness format basis_dim ndc_width ndc_height
           ndc_focal) w) /\
   (forall K data offset scaling fx fy width height step_size ndc_width
           ndc_height ndc_focal fast,
      input_ok data = true -> input_ok c2w = true ->
      input_ok scaling = true -> ndimension data = 3 ->
      run K
        (call_grid_weight_render data offset scaling c2w fx fy width height
           step_size ndc_width ndc_height ndc_focal fast) w =
      launch K
        (call_grid_weight_render data offset scaling c2w fx fy width height
           step_size ndc_width ndc_height ndc_focal fast) w)).
Proof.
  split.
  - intros Hno.
    assert (c2w_ok c2w = false) as Hb.
    { apply not_true_is_false. by rewrite c2w_ok_shape. }
    repeat split; intros; reject_by Hb.
  - intros Hshape. pose proof Hshape as Hok%c2w_ok_shape.
    pose proof Hok as [Hdim Hsz]%andb_true_iff. apply Z.eqb_eq in Hdim.
    split; [done|]. split; [done|].
    repeat split; intros; apply run_accept; cbn [accepts];
      repeat match goal with H : _ = true |- _ => rewrite H; clear H end;
      try reflexivity.
    + match goal with H : ndimension _ = 3 |- _ =>
        apply Z.eqb_eq in H; by rewrite H end.
    + match goal with H : ndimension _ = 3 |- _ =>
        apply Z.eqb_eq in H; by rewrite H end.
Qed.

Lemma c2w_shape_check_witness :
  rejected
    (call_grid_weight_render (Examples.cuda_float [4; 4; 4] 0)
       (Examples.cuda_float [3] 1) (Examples.cuda_float [3] 2)
       (Examples.cuda_float [4; 3] 3) 1%Q 1%Q 8 8 (1 # 100)%Q 0 0 1%Q false)
    Examples.empty_world /\
  size1_is_4 (Examples.cuda_float [3; 4] 3) = true.
Proof.
  split.
  - refine (proj2 (proj2 (proj1 (c2w_shape_check Examples.empty_world
                                   (Examples.cuda_float [4; 3] 3)) _))
              _ _ _ _ _ _ _ _ _ _ _ _).
    intros [rows [=]].
  - refine (proj1 (proj2 (proj2 (c2w_shape_check Examples.empty_world
                                   (Examples.cuda_float [3; 4] 3)) _))).
    by exists 3.
Defined.

Lemma guard_restores_device {A} (x : Tensor) (body : M A) (w : World) :
  is_cuda x = true ->
  current_device (OptionalCUDAGuard (device_of x) body w).2 =
  current_device w.
Proof.
  unfold is_cuda, device_of, OptionalCUDAGuard.
  destruct (device x) as [|i]; [done|]. intros _.
  by destruct (body (set_device i w)).
Qed.

(** Every exported operation leaves the current CUDA device as it found
    it: a rejected call never changes it, and the guard taken after the
    checks puts the previous device back when the kernel returns or
    throws. *)
Theorem current_device_preserved (K : Kernels) (c : Call) (w : World) :
  current_device (run K c w).2 = current_device w.
Proof.
  destruct (accepts c) eqn:Hacc.
  - rewrite (run_accept K c w Hacc).
    destruct c; cbn [accepts] in Hacc; cbn [launch];
      apply guard_restores_device;
      repeat match goal with
             | H : _ && _ = true |- _ => apply andb_true_iff in H as [H ?]
             end;
      match goal with
      | H : input_ok ?x = true |- is_cuda ?x = true =>
          by apply andb_true_iff in H as [H _]
      end.
  - destruct (run_reject K c w Hacc) as [e [-> _]]. reflexivity.
Qed.

End SvoxFacts.

(** ** Properties of the index and of the vertical engine *)

Module IndexFacts.
Import Core.

Section Facts.
Context {V : Type} (max_depth : nat).
Implicit Types (t : Octree V) (p : Vec3) (l : Leaf).

Lemma forallb_eq {A} (f g : A -> bool) (xs : list A) :
  (forall x, f x = g x) -> forallb f xs = forallb g xs.
Proof.
  intros Hfg. induction xs as [|x xs IH]; [reflexivity|].
  cbn. by rewrite Hfg, IH.
Qed.

Lemma cell_coord_lt n x : (0 < n)%nat -> (cell_coord n x < n)%nat.
Proof.
  intros Hn. unfold cell_coord.
  generalize (Qfloor (x * inject_Z (Z.of_nat n))). intros z. lia.
Qed.

Lemma cells_spec n i j k :
  (i < n)%nat -> (j < n)%nat -> (k < n)%nat -> In (i, j, k) (cells n).
Proof.
  intros Hi Hj Hk. apply list_elem_of_In. unfold cells.
  apply list_elem_of_bind. exists i. split; [|apply elem_of_seq; lia].
  apply list_elem_of_bind. exists j. split; [|apply elem_of_seq; lia].
  apply list_elem_of_bind. exists k. split; [|apply elem_of_seq; lia].
  apply list_elem_of_singleton. reflexivity.
Qed.

(** On a tree that meets the Child-array invariant the traversal always
    resolves a leaf, and that leaf is a cell of the arrays. *)
Lemma traverse_total t fuel b p side :
  (0 < N t)%nat -> depth_ok t fuel b = true ->
  exists l, traverse t fuel b p side = Some l /\
            (leaf_slot t l < length (child t))%nat.
Proof.
  intros Hn. revert b p side.
  induction fuel as [|fuel IH]; intros b [[x y] z] side Hok.
  all: cbn [depth_ok] in Hok; rewrite forallb_forall in Hok.
  all: specialize (Hok _ (cells_spec (N t) _ _ _
                            (cell_coord_lt (N t) x Hn)
                            (cell_coord_lt (N t) y Hn)
                            (cell_coord_lt (N t) z Hn))).
  all: cbn [traverse]; cbv beta iota in Hok.
  all: destruct (child t !! slot (N t) b (cell_coord (N t) x)
                   (cell_coord (N t) y) (cell_coord (N t) z))
         as [c|] eqn:Hc; [|discriminate].
  all: destruct (c =? 0) eqn:Hz.
  all: try (eexists; split; [reflexivity|];
            apply lookup_lt_is_Some; unfold leaf_slot; cbn; eauto; fail).
  - cbn in Hok. by rewrite andb_false_r in Hok.
  - cbn in Hok. apply andb_true_iff in Hok as [Hpos Hsub].
    apply Z.ltb_lt in Hpos.
    destruct (c <? 0) eqn:Hneg; [apply Z.ltb_lt in Hneg; lia|].
    by apply IH.
Qed.

Lemma traverse_same_index t t' fuel b p side :
  same_index t t' -> traverse t fuel b p side = traverse t' fuel b p side.
Proof.
  intros (HN & Hc & _). revert b p side.
  induction fuel as [|fuel IH]; intros b [[x y] z] side; cbn [traverse];
    rewrite <- HN, <- Hc; [reflexivity|].
  destruct (child t !! _) as [c|]; [|reflexivity].
  destruct (c =? 0); [reflexivity|]. destruct (c <? 0); [reflexivity|].
  apply IH.
Qed.

Lemma resolve_same_index t t' p :
  same_index t t' -> resolve max_depth t p = resolve max_depth t' p.
Proof.
  intros H. unfold resolve, to_root.
  destruct H as (HN & Hc & Ho & Hs). rewrite <- Ho, <- Hs.
  by apply traverse_same_index.
Qed.

Lemma leaf_slot_same_index t t' l :
  same_index t t' -> leaf_slot t l = leaf_slot t' l.
Proof. intros (HN & _). unfold leaf_slot. by rewrite HN. Qed.

Lemma resolve_total t p :
  well_formed max_depth t = true ->
  exists l, resolve max_depth t p = Some l /\
            (leaf_slot t l < length (data t))%nat.
Proof.
  unfold well_formed.
  intros [[Hn Hd]%andb_true_iff Hlen]%andb_true_iff.
  apply Nat.ltb_lt in Hn. apply Nat.eqb_eq in Hlen. rewrite Hlen.
  by apply traverse_total.
Qed.

Lemma depth_ok_same_index t t' fuel b :
  same_index t t' -> depth_ok t fuel b = depth_ok t' fuel b.
Proof.
  intros (HN & Hc & _). revert b.
  induction fuel as [|fuel IH]; intros b; cbn [depth_ok];
    rewrite <- HN, <- Hc; [reflexivity|].
  apply forallb_eq. intros [[i j] k].
  destruct (child t !! _) as [c|]; [|reflexivity]. by rewrite IH.
Qed.

Lemma well_formed_same_index t t' :
  same_index t t' -> length (data t) = length (data t') ->
  well_formed max_depth t = true -> well_formed max_depth t' = true.
Proof.
  intros Hsame Hlen. unfold well_formed.
  rewrite <- (depth_ok_same_index t t' _ _ Hsame).
  destruct Hsame as (HN & Hc & _). by rewrite <- HN, <- Hlen, <- Hc.
Qed.

(** What one assignment does: it keeps the index and overwrites the row of
    the resolved slot. *)
Lemma assign_point_spec t item t' :
  assign_point max_depth t item = Some t' ->
  exists l, resolve max_depth t item.1 = Some l /\
            (leaf_slot t l < length (data t))%nat /\
            same_index t t' /\
            data t' = <[leaf_slot t l := item.2]> (data t).
Proof.
  unfold assign_point. destruct (resolve max_depth t item.1) as [l|]; [|done].
  cbn. case_decide; [|done]. intros [= <-]. by exists l.
Qed.

Lemma assign_point_total t item :
  well_formed max_depth t = true ->
  exists t', assign_point max_depth t item = Some t'.
Proof.
  intros Hwf. destruct (resolve_total t item.1 Hwf) as (l & Hl & Hlt).
  unfold assign_point. rewrite Hl. cbn. rewrite decide_True by done. eauto.
Qed.

Lemma assign_total t items :
  well_formed max_depth t = true ->
  exists t', assign max_depth t items = Some t'.
Proof.
  revert t. induction items as [|item rest IH]; intros t Hwf; [by exists t|].
  destruct (assign_point_total t item Hwf) as [t1 H1].
  cbn [assign]. rewrite H1. cbn.
  destruct (assign_point_spec _ _ _ H1) as (l & _ & _ & Hsame & Hdata).
  apply IH. apply (well_formed_same_index t); [done| |done].
  by rewrite Hdata, length_insert.
Qed.

Lemma assign_same_index t items t' :
  assign max_depth t items = Some t' -> same_index t t'.
Proof.
  revert t. induction items as [|item rest IH]; intros t.
  - intros [= <-]. by repeat split.
  - cbn [assign]. destruct (assign_point max_depth t item) as [t1|] eqn:H1;
      [|done]. cbn. intros Hrest%IH.
    destruct (assign_point_spec _ _ _ H1) as (l & _ & _ & Hsame & _).
    destruct Hsame as (? & ? & ? & ?), Hrest as (? & ? & ? & ?).
    repeat split; congruence.
Qed.

Lemma target_same_index t t' p :
  same_index t t' -> target max_depth t p = target max_depth t' p.
Proof.
  intros H. unfold target. rewrite (resolve_same_index t t' p H).
  destruct (resolve max_depth t' p); [|done]. cbn.
  by rewrite (leaf_slot_same_index t t' _ H).
Qed.

(** Assignments aimed at other slots leave a slot as it was. *)
Lemma assign_other t items t' s :
  assign max_depth t items = Some t' ->
  (forall item, item ∈ items -> target max_depth t item.1 <> Some s) ->
  data t' !! s = data t !! s.
Proof.
  revert t. induction items as [|item rest IH]; intros t.
  - by intros [= <-].
  - cbn [assign]. destruct (assign_point max_depth t item) as [t1|] eqn:H1;
      [|done]. cbn. intros Hrest Hne.
    destruct (assign_point_spec _ _ _ H1) as (l & Hl & _ & Hsame & Hdata).
    rewrite (IH t1 Hrest).
    + rewrite Hdata. apply list_lookup_insert_ne.
      intros <-. apply (Hne item); [by left|]. unfold target. by rewrite Hl.
    + intros item' Hin. rewrite <- (target_same_index t t1 _ Hsame).
      apply Hne. by right.
Qed.

(** After a batch of assignments, the slot of an item that is alone on its
    slot holds that item's row. *)
Lemma assign_lookup t items t' q p v s :
  assign max_depth t items = Some t' ->
  items !! q = Some (p, v) ->
  target max_depth t p = Some s ->
  (forall q' p' v', q' <> q -> items !! q' = Some (p', v') ->
                    target max_depth t p' <> target max_depth t p) ->
  data t' !! s = Some v.
Proof.
  revert t q. induction items as [|item rest IH]; intros t q; [done|].
  cbn [assign]. destruct (assign_point max_depth t item) as [t1|] eqn:H1;
    [|done]. cbn. intros Hrest Hq Hs Hsole.
  destruct (assign_point_spec _ _ _ H1) as (l & Hl & Hlt & Hsame & Hdata).
  destruct q as [|q]; cbn in Hq.
  - injection Hq as ->. cbn in Hl, Hdata.
    unfold target in Hs. rewrite Hl in Hs. injection Hs as <-.
    rewrite (assign_other t1 rest t' (leaf_slot t l) Hrest).
    + rewrite Hdata. by apply list_lookup_insert_eq.
    + intros [p' v'] [q' Hq']%list_elem_of_lookup.
      rewrite <- (target_same_index t t1 _ Hsame). cbn.
      intros Heq. apply (Hsole (S q') p' v'); [done|done|].
      rewrite Heq. unfold target. by rewrite Hl.
  - apply (IH t1 q Hrest Hq).
    + by rewrite <- (target_same_index t t1 _ Hsame).
    + intros q' p' v' Hne Hq'.
      rewrite <- !(target_same_index t t1 _ Hsame).
      apply (Hsole (S q') p' v'); [lia|done].
Qed.

(** C1. Round trip of the vertical engine: after [assign] has run over a
    batch in which the point [p], carrying the row [v], is the only point
    mapped to its leaf cell, [query] at [p] on the resulting tree returns
    exactly [v]. *)
Theorem assign_query_round_trip t (items : list (Vec3 * list V)) (q : nat)
  p (v : list V) :
  well_formed max_depth t = true ->
  items !! q = Some (p, v) ->
  (forall q' p' v', q' <> q -> items !! q' = Some (p', v') ->
                    target max_depth t p' <> target max_depth t p) ->
  exists t' l,
    assign max_depth t items = Some t' /\
    query max_depth t' [p] = Some ([v], [l]).
Proof.
  intros Hwf Hq Hsole.
  destruct (assign_total t items Hwf) as [t' Ht'].
  destruct (resolve_total t p Hwf) as (l & Hl & _).
  exists t', l. split; [done|].
  pose proof (assign_same_index _ _ _ Ht') as Hsame.
  assert (data t' !! leaf_slot t l = Some v) as Hrow.
  { apply (assign_lookup t items t' q p v); try done.
    unfold target. by rewrite Hl. }
  unfold query. cbn. unfold query_point.
  rewrite <- (resolve_same_index t t' p Hsame), Hl. cbn.
  rewrite <- (leaf_slot_same_index t t' l Hsame), Hrow. reflexivity.
Qed.

End Facts.

Lemma assign_query_round_trip_witness :
  exists t' l,
    assign Examples.depth_bound Examples.scenario_tree
      [(((1 # 10)%Q, (1 # 10)%Q, (1 # 10)%Q), [3%Q]);
       (((9 # 10)%Q, (9 # 10)%Q, (9 # 10)%Q), [7%Q])] = Some t' /\
    query Examples.depth_bound t' [((9 # 10)%Q, (9 # 10)%Q, (9 # 10)%Q)] =
    Some ([[7%Q]], [l]).
Proof.
  apply (assign_query_round_trip Examples.depth_bound Examples.scenario_tree
           _ 1%nat ((9 # 10)%Q, (9 # 10)%Q, (9 # 10)%Q) [7%Q]).
  - reflexivity.
  - reflexivity.
  - intros [|[|q']] p' v' Hne Hq'; [|done|done].
    injection Hq' as <- <-. vm_compute. discriminate.
Defined.

(** The concrete scenario of the design document, evaluated. *)
Example scenario_queries :
  query Examples.depth_bound Examples.scenario_tree
    [((3 # 4)%Q, (3 # 4)%Q, (3 # 4)%Q); ((1 # 10)%Q, (1 # 10)%Q, (1 # 10)%Q)]
  = Some ([[5%Q]; [0%Q]],
          [mkLeaf 0 (1, 1, 1)%nat ((2 # 4)%Q, (2 # 4)%Q, (2 # 4)%Q) (1 # 2)%Q;
           mkLeaf 0 (0, 0, 0)%nat ((2 # 10)%Q, (2 # 10)%Q, (2 # 10)%Q)
             (1 # 2)%Q]).
Proof. vm_compute. reflexivity. Qed.

Example scenario_assign_then_query :
  (t' ← assign Examples.depth_bound Examples.scenario_tree
          [(((9 # 10)%Q, (9 # 10)%Q, (9 # 10)%Q), [7%Q])] ;
   fst <$> query Examples.depth_bound t'
            [((9 # 10)%Q, (9 # 10)%Q, (9 # 10)%Q)])
  = Some [[7%Q]].
Proof. vm_compute. reflexivity. Qed.

(** A point inside a subdivided cell resolves to a leaf of the child block,
    and a tree deeper than the bound is a structural fault. *)
Example nested_resolve :
  leaf_block <$>
    resolve Examples.depth_bound Examples.nested_tree
      ((1 # 10)%Q, (6 # 10)%Q, (9 # 10)%Q) = Some 1%nat /\
  resolve 0 Examples.nested_tree ((1 # 10)%Q, (6 # 10)%Q, (9 # 10)%Q) = None.
Proof. split; vm_compute; reflexivity. Qed.

End IndexFacts.

(** ** Properties of the ray compositor *)

Module RenderFacts.
Import Core.

Section Facts.
Variable max_depth : nat.
Variable decode : list R -> Vec3 -> R * list R.
Variable span : Vec3 -> Vec3 -> Q * Q.
Variable threshold : R.
Variable out_dim : nat.
Variable step_size : Q.
Variable background_brightness : R.
Variable fast : bool.

Local Abbreviation composite_ := (composite max_depth decode step_size).
Local Abbreviation march_ := (march max_depth decode threshold step_size fast).
Local Abbreviation render_ray_ :=
  (render_ray max_depth decode span threshold out_dim step_size
     background_brightness fast).
Local Abbreviation volume_render_ :=
  (volume_render max_depth decode span threshold out_dim step_size
     background_brightness fast).

Lemma step_alpha_zero : step_alpha step_size 0 = 0%R.
Proof.
  unfold step_alpha. rewrite Rmult_0_l, Ropp_0, exp_0. lra.
Qed.


Lemma imap_fixed {A} (f : nat -> A -> A) (xs : list A) :
  (forall i x, f i x = x) -> imap f xs = xs.
Proof.
  revert f. induction xs as [|x xs IH]; intros f Hf; [reflexivity|].
  rewrite imap_cons, Hf. f_equal. apply IH. intros i y. apply Hf.
Qed.

(** The parts of a compositing step, named. *)
Lemma composite_spec t r s tq s' :
  composite_ t r s tq = Some s' ->
  exists l row,
    resolve max_depth t (point_at r tq) = Some l /\
    data t !! leaf_slot t l = Some row /\
    let sigma := (decode row (vdir r)).1 in
    let c := (decode row (vdir r)).2 in
    let alpha := step_alpha step_size sigma in
    s' = mkRayState
           (transmittance s * (1 - alpha))%R
           (imap (fun ch o => (o + transmittance s * alpha * nth ch c 0)%R)
              (colour s))
           (alter (fun a => (a + transmittance s * alpha)%R) (leaf_slot t l)
              (weights s)).
Proof.
  unfold composite.
  destruct (resolve max_depth t (point_at r tq)) as [l|]; [|done]. cbn.
  destruct (data t !! leaf_slot t l) as [row|] eqn:Hrow; [|done]. cbn.
  destruct (decode row (vdir r)) as [sigma c] eqn:Hdec. intros [= <-].
  exists l, row. by rewrite Hdec.
Qed.

Lemma composite_total t r s tq :
  well_formed max_depth t = true -> is_Some (composite_ t r s tq).
Proof.
  intros Hwf.
  destruct (IndexFacts.resolve_total max_depth t (point_at r tq) Hwf)
    as (l & Hl & Hlt).
  apply lookup_lt_is_Some in Hlt as [row Hrow].
  unfold composite. rewrite Hl. cbn. rewrite Hrow. cbn.
  by destruct (decode row (vdir r)).
Qed.

Lemma march_total t r ts s :
  well_formed max_depth t = true -> is_Some (march_ t r ts s).
Proof.
  intros Hwf. revert s. induction ts as [|tq ts IH]; intros s; [done|].
  cbn [march]. destruct (composite_total t r s tq Hwf) as [s' ->]. cbn.
  destruct (fast && _); [done|].
  destruct (IH s') as [o ->]. done.
Qed.

Lemma render_ray_total t wbuf r :
  well_formed max_depth t = true -> is_Some (render_ray_ t wbuf r).
Proof.
  intros Hwf. unfold render_ray.
  by destruct (march_total t r (sample_ts span step_size r)
                 (mkRayState 1 (repeat 0%R out_dim) wbuf) Hwf) as [o ->].
Qed.

Lemma volume_render_total t wbuf rays :
  well_formed max_depth t = true -> is_Some (volume_render_ t wbuf rays).
Proof.
  intros Hwf. revert wbuf.
  induction rays as [|r rays IH]; intros wbuf; [done|].
  cbn [volume_render].
  destruct (render_ray_total t wbuf r Hwf) as [[out wbuf'] ->]. cbn.
  by destruct (IH wbuf') as [[outs wbuf''] ->].
Qed.

(** A sample in a cell of zero density changes nothing. *)
Lemma composite_zero t r s tq s' :
  composite_ t r s tq = Some s' ->
  (forall l row,
     resolve max_depth t (point_at r tq) = Some l ->
     data t !! leaf_slot t l = Some row ->
     (decode row (vdir r)).1 = 0%R) ->
  s' = s.
Proof.
  intros (l & row & Hl & Hrow & ->)%composite_spec Hzero. cbv zeta.
  rewrite (Hzero l row Hl Hrow), step_alpha_zero.
  destruct s as [T col w]. cbn. f_equal.
  - lra.
  - apply imap_fixed. intros i x. lra.
  - apply list_alter_id. intros x. lra.
Qed.

Lemma march_zero t r ts s o :
  (fast = true -> (threshold <= transmittance s)%R) ->
  march_ t r ts s = Some o ->
  (forall tq l row,
     tq ∈ ts ->
     resolve max_depth t (point_at r tq) = Some l ->
     data t !! leaf_slot t l = Some row ->
     (decode row (vdir r)).1 = 0%R) ->
  final o = s /\ occluded o = false.
Proof.
  intros Hthr. revert o. induction ts as [|tq ts IH]; intros o.
  - by intros [= <-].
  - cbn [march].
    destruct (composite_ t r s tq) as [s'|] eqn:Hs'; [|done]. cbn.
    intros Hm Hzero.
    assert (s' = s) as ->.
    { apply (composite_zero t r s tq s' Hs'). intros l row.
      apply Hzero. by left. }
    assert (fast && bool_decide (transmittance s < threshold)%R = false)
      as Hstay.
    { destruct fast; [|reflexivity].
      apply bool_decide_eq_false_2. specialize (Hthr eq_refl). lra. }
    rewrite Hstay in Hm.
    destruct (march_ t r ts s) as [o'|] eqn:Ho'; [|done].
    cbn in Hm. injection Hm as <-. cbn.
    apply IH; [done|]. intros tq' l row Hin. apply Hzero. by right.
Qed.

Lemma background_only (n : nat) (bg : R) :
  map (fun c => (c + 1 * bg)%R) (repeat 0%R n) = repeat bg n.
Proof.
  induction n as [|n IH]; [reflexivity|]. cbn. rewrite IH. f_equal. lra.
Qed.

Lemma render_ray_zero t wbuf r out wbuf' :
  (fast = true -> (threshold <= 1)%R) ->
  render_ray_ t wbuf r = Some (out, wbuf') ->
  zero_density max_depth decode span step_size t r ->
  out = repeat background_brightness out_dim /\ wbuf' = wbuf.
Proof.
  intros Hthr Hr Hzero. unfold render_ray in Hr.
  destruct (march_ t r _ _) as [o|] eqn:Ho; [|done].
  cbn in Hr. injection Hr as <- <-.
  destruct (march_zero t r _ (mkRayState 1 (repeat 0%R out_dim) wbuf) o
              Hthr Ho Hzero) as [-> ->]. cbn.
  split; [apply background_only|reflexivity].
Qed.

(** C2. Background fallback: in a batch rendered over a well-formed tree,
    a ray whose march meets only zero-density cells gets exactly
    [background_brightness] in every output channel (the early-exit
    threshold, when the flag is set, being at most 1). *)
Theorem background_fallback (t : Octree R) (wbuf : list R)
  (rays : list Ray) (i : nat) (r : Ray) :
  well_formed max_depth t = true ->
  (fast = true -> (threshold <= 1)%R) ->
  rays !! i = Some r ->
  zero_density max_depth decode span step_size t r ->
  exists outs wbuf',
    volume_render_ t wbuf rays = Some (outs, wbuf') /\
    outs !! i = Some (repeat background_brightness out_dim).
Proof.
  intros Hwf Hthr Hi Hzero.
  destruct (volume_render_total t wbuf rays Hwf) as [[outs wbuf'] Hv].
  exists outs, wbuf'. split; [done|].
  revert wbuf i outs Hi Hv.
  induction rays as [|r0 rays IH]; intros wbuf i outs Hi Hv; [done|].
  cbn [volume_render] in Hv.
  destruct (render_ray_ t wbuf r0) as [[out w1]|] eqn:H0; [|done].
  cbn in Hv.
  destruct (volume_render_ t w1 rays) as [[outs' w2]|] eqn:Hrest; [|done].
  cbn in Hv. injection Hv as <- <-.
  destruct i as [|i]; cbn in Hi |- *.
  - injection Hi as ->.
    by destruct (render_ray_zero _ _ _ _ _ Hthr H0 Hzero) as [-> _].
  - by apply (IH w1).
Qed.






End Facts.

Ltac zero_rows H :=
  apply list_elem_of_lookup_2 in H; cbn in H;
  repeat (apply elem_of_cons in H as [-> | H]; [cbn; lra|]);
  by apply elem_of_nil in H.

Lemma background_fallback_witness :
  exists outs wbuf',
    volume_render Examples.depth_bound Examples.density_only
      Examples.unit_span (1 / 100)%R 3 (1 # 2)%Q (1 / 2)%R true
      Examples.empty_tree [0%R; 0%R; 0%R; 0%R; 0%R; 0%R; 0%R; 0%R]
      [Examples.x_ray] = Some (outs, wbuf') /\
    outs !! 0%nat = Some [(1 / 2)%R; (1 / 2)%R; (1 / 2)%R].
Proof.
  apply (background_fallback Examples.depth_bound Examples.density_only
           Examples.unit_span (1 / 100)%R 3 (1 # 2)%Q (1 / 2)%R true
           Examples.empty_tree _ [Examples.x_ray] 0%nat Examples.x_ray).
  - reflexivity.
  - intros _. lra.
  - reflexivity.
  - intros tq l row _ _ Hrow. zero_rows Hrow.
Defined.


(** The scenario's ray, evaluated: it crosses the empty cell (0,1,1) and
    then the cell (1,1,1) of density 5, so with step 1/2 its transmittance
    goes 1, 1, exp(-5/2). *)
Example scenario_transmittance :
  history <$>
    march Examples.depth_bound Examples.density_only (1 / 100)%R (1 # 2)%Q
      false Examples.scenario_density_tree Examples.x_ray
      (sample_ts Examples.unit_span (1 # 2)%Q Examples.x_ray)
      (mkRayState 1 [] []) =
  Some [1%R; exp (- (5 / 2))].
Proof.
  replace (sample_ts Examples.unit_span (1 # 2)%Q Examples.x_ray)
    with [(0 # 2)%Q; (1 # 2)%Q] by reflexivity.
  cbn [march]. unfold composite.
  destruct (resolve Examples.depth_bound Examples.scenario_density_tree
              (point_at Examples.x_ray (0 # 2))) as [l0|] eqn:Hl0;
    vm_compute in Hl0; [injection Hl0 as <-|discriminate].
  destruct (resolve Examples.depth_bound Examples.scenario_density_tree
              (point_at Examples.x_ray (1 # 2))) as [l1|] eqn:Hl1;
    vm_compute in Hl1; [injection Hl1 as <-|discriminate].
  cbn. unfold step_alpha, Q2R. cbn.
  replace (- (0 * (1 * / 2)))%R with 0%R by lra.
  replace (- (5 * (1 * / 2)))%R with (- (5 / 2))%R by lra.
  rewrite exp_0. do 2 f_equal; [lra|]. f_equal. lra.
Qed.

End RenderFacts.

(** ** Further properties of the boundary layer *)

Module BoundaryFacts.
Import Torch Svox SvoxFacts.

(** A call is rejected exactly when one of its checks fails. *)
Lemma rejected_iff c w : rejected c w <-> accepts c = false.
Proof.
  split; [|apply rejected_intro].
  intros [e He]. destruct (accepts c) eqn:Hacc; [|done]. exfalso.
  specialize (He Examples.idle_kernels).
  rewrite (run_accept _ c w Hacc) in He.
  destruct c; cbn [accepts] in Hacc; cbn [launch] in He;
    repeat match goal with
           | H : _ && _ = true |- _ => apply andb_true_iff in H as [H ?]
           end;
    match goal with
    | He : OptionalCUDAGuard (device_of ?x) _ _ = _ |- _ =>
        assert (is_cuda x = true) as Hx
          by (first [ assumption
                    | match goal with
                      | H : input_ok x = true |- _ =>
                          by apply andb_true_iff in H as [H _]
                      end ]);
        unfold OptionalCUDAGuard, device_of in He; unfold is_cuda in Hx;
        destruct (device x); [discriminate Hx|]; cbn in He; discriminate He
    end.
Qed.



(** The checks read a tensor's residency, contiguity and sizes, and the
    element type of [indices] and [values] only: replacing the tensors of a
    call by others that agree on these leaves it rejected or not as before.
    Device ordinals, storage identity (aliasing) and every other element
    type are never examined. *)
Theorem checks_read_metadata_only (f : string -> Tensor -> Tensor)
  (c : Call) (w : World) :
  (forall n x,
     is_cuda (f n x) = is_cuda x /\
     is_contiguous (f n x) = is_contiguous x /\
     sizes (f n x) = sizes x) ->
  (forall n x,
     n = "indices" \/ n = "values" ->
     is_floating_point (f n x) = is_floating_point x) ->
  rejected (map_tensors f c) w <-> rejected c w.
Proof.
  intros Hmeta Hfloat. rewrite !rejected_iff.
  assert (accepts (map_tensors f c) = accepts c) as ->; [|done].
  assert (forall n x, input_ok (f n x) = input_ok x) as Hin.
  { intros n x. unfold input_ok. destruct (Hmeta n x) as (-> & -> & _).
    reflexivity. }
  assert (forall n x, dim (f n x) = dim x) as Hdim.
  { intros n x. unfold dim. by destruct (Hmeta n x) as (_ & _ & ->). }
  assert (forall n m x y, same_size0 (f n x) (f m y) = same_size0 x y)
    as Hsame.
  { intros n m x y. unfold same_size0.
    destruct (Hmeta n x) as (_ & _ & ->).
    by destruct (Hmeta m y) as (_ & _ & ->). }
  assert (forall n x, c2w_ok (f n x) = c2w_ok x) as Hc2w.
  { intros n x. unfold c2w_ok, size1_is_4, ndimension. rewrite Hdim.
    by destruct (Hmeta n x) as (_ & _ & ->). }
  destruct c; cbn [map_tensors accepts]; unfold ndimension;
    rewrite ?Hin, ?Hdim, ?Hsame, ?Hc2w,
      ?(Hfloat "indices" _ (or_introl eq_refl)),
      ?(Hfloat "values" _ (or_intror eq_refl));
    reflexivity.
Qed.

Lemma checks_read_metadata_only_witness :
  rejected
    (call_assign_vertical (mkTensor (CUDA 4) true [1; 2; 2; 2; 1] kFloat 7)
       (mkTensor (CUDA 5) true [1; 2; 2; 2] kFloat 7)
       (mkTensor (CUDA 7) true [1; 3] kFloat 7)
       (mkTensor (CUDA 6) true [1; 1] kFloat 7)
       (mkTensor (CUDA 6) true [3] kFloat 7)
       (mkTensor (CUDA 7) true [3] kFloat 7))
    Examples.empty_world <->
  rejected
    (call_assign_vertical (Examples.cuda_float [1; 2; 2; 2; 1] 0)
       (Examples.cuda_float [1; 2; 2; 2] 1) (Examples.cuda_float [1; 3] 2)
       (Examples.cuda_float [1; 1] 3) (Examples.cuda_float [3] 4)
       (Examples.cuda_float [3] 5))
    Examples.empty_world.
Proof.
  refine (checks_read_metadata_only
            (fun n x =>
               mkTensor
                 (match device x with
                  | CUDA i => CUDA (i + Z.of_nat (String.length n))
                  | CPU => CPU
                  end)
                 (contiguous x) (sizes x) (scalar_type x) 7)
            (call_assign_vertical (Examples.cuda_float [1; 2; 2; 2; 1] 0)
               (Examples.cuda_float [1; 2; 2; 2] 1)
               (Examples.cuda_float [1; 3] 2) (Examples.cuda_float [1; 1] 3)
               (Examples.cuda_float [3] 4) (Examples.cuda_float [3] 5))
            Examples.empty_world _ _).
  - intros n x. unfold is_cuda, is_contiguous. cbn.
    by destruct (device x).
  - intros n x _. reflexivity.
Defined.

(** No scalar argument is validated: two calls of an operation on the same
    tensors are rejected or not alike, whatever their step size, background
    brightness, focal lengths, image size, layout selector, basis size or
    early-exit flag. *)
Theorem scalar_arguments_unchecked (c c' : Call) (w : World) :
  tensor_args c = tensor_args c' ->
  rejected c w <-> rejected c' w.
Proof.
  intros Hargs. rewrite !rejected_iff.
  assert (accepts c = accepts c') as ->; [|done].
  destruct c, c'; cbn [tensor_args] in Hargs;
    try discriminate Hargs;
    injection Hargs as ?; subst; reflexivity.
Qed.

Lemma scalar_arguments_unchecked_witness :
  rejected
    (call_volume_render (Examples.cuda_float [1; 2; 2; 2; 4] 0)
       (Examples.cuda_float [1; 2; 2; 2] 1) (Examples.cuda_float [0] 2)
       (Examples.cuda_float [5; 3] 3) (Examples.cuda_float [5; 3] 4)
       (Examples.cuda_float [5; 3] 5) (Examples.cuda_float [3] 6)
       (Examples.cuda_float [3] 7) (1 # 100)%Q 1%Q 0 9 false
       (Examples.cuda_float [8] 8))
    Examples.empty_world <->
  rejected
    (call_volume_render (Examples.cuda_float [1; 2; 2; 2; 4] 0)
       (Examples.cuda_float [1; 2; 2; 2] 1) (Examples.cuda_float [0] 2)
       (Examples.cuda_float [5; 3] 3) (Examples.cuda_float [5; 3] 4)
       (Examples.cuda_float [5; 3] 5) (Examples.cuda_float [3] 6)
       (Examples.cuda_float [3] 7) (-1)%Q 0%Q (-7) (-1) true
       (Examples.cuda_float [8] 8))
    Examples.empty_world.
Proof.
  apply scalar_arguments_unchecked. reflexivity.
Defined.



(** The checks as conditionals, in the order the wrappers run them. *)
Lemma TORCH_CHECK_bind {A} (b : bool) msg (k : M A) w :
  (TORCH_CHECK b msg ;; k) w = if b then k w else (inl (c10_Error msg), w).
Proof. by destruct b. Qed.

Lemma CHECK_INPUT_bind {A} name x (k : M A) w :
  (CHECK_INPUT name x ;; k) w =
  if is_cuda x
  then if is_contiguous x then k w
       else (inl (c10_Error (name ++ " must be contiguous")%string), w)
  else (inl (c10_Error (name ++ " must be a CUDA tensor")%string), w).
Proof.
  unfold CHECK_INPUT, CHECK_CUDA, CHECK_CONTIGUOUS, TORCH_CHECK.
  by destruct (is_cuda x), (is_contiguous x).
Qed.

Lemma CHECK_SAME_SIZE0_bind {A} a b msg (k : M A) w :
  (CHECK_SAME_SIZE0 a b msg ;; k) w =
  match sizes a !! 0%nat with
  | Some na =>
      match sizes b !! 0%nat with
      | Some nb => if na =? nb then k w else (inl (c10_Error msg), w)
      | None => (inl (c10_IndexError "Dimension out of range"), w)
      end
  | None => (inl (c10_IndexError "Dimension out of range"), w)
  end.
Proof.
  unfold CHECK_SAME_SIZE0, size, TORCH_CHECK, mbind, M_bind, mret, M_ret,
    throw.
  destruct (sizes a !! 0%nat) as [na|]; [|done].
  destruct (sizes b !! 0%nat) as [nb|]; [|done].
  by destruct (na =? nb).
Qed.

Lemma CHECK_SIZE1_IS_4_bind {A} c2w (k : M A) w :
  (CHECK_SIZE1_IS_4 c2w ;; k) w =
  match sizes c2w !! 1%nat with
  | Some n => if n =? 4 then k w else (inl (c10_Error "c2w.size(1) == 4"), w)
  | None => (inl (c10_IndexError "Dimension out of range"), w)
  end.
Proof.
  unfold CHECK_SIZE1_IS_4, size, TORCH_CHECK, mbind, M_bind, mret, M_ret,
    throw.
  destruct (sizes c2w !! 1%nat) as [n|]; [|done].
  by destruct (n =? 4).
Qed.

Ltac unfold_wrappers :=
  unfold query_vertical, query_vertical_backward, assign_vertical,
    volume_render, grid_weight_render, volume_render_image,
    volume_render_backward, volume_render_image_backward;
  repeat first
    [ rewrite CHECK_INPUT_bind
    | rewrite CHECK_SAME_SIZE0_bind
    | rewrite CHECK_SIZE1_IS_4_bind
    | rewrite TORCH_CHECK_bind ].

Ltac in_args :=
  cbn [tensor_args]; apply list_elem_of_In; simpl; auto 12.

(** Every checked tensor passed: what is left to close a branch in which
    a rank, dtype or size check failed. *)
Ltac inputs_passed :=
  let n := fresh "n" in
  let x := fresh "x" in
  let Hin := fresh "Hin" in
  let Hwa := fresh "Hwa" in
  let Hoff := fresh "Hoff" in
  intros n x Hin Hwa Hoff; cbn [tensor_args camera_driven] in Hin, Hoff;
  repeat (apply elem_of_cons in Hin as [Hin | Hin];
          [ injection Hin as -> -> ;
            first [ done
                  | discriminate (Hoff eq_refl)
                  | unfold input_ok;
                    repeat match goal with
                           | H : _ = true |- _ => rewrite H; clear H
                           end;
                    reflexivity ]
          | ]);
  by apply elem_of_nil in Hin.

Ltac blame_step w :=
  lazymatch goal with
  | |- exists e,
         (if is_cuda ?x then _
          else (inl (c10_Error (?n ++ _)%string), _)) = _ /\ _ =>
      destruct (is_cuda x) eqn:?;
      [ | exists (c10_Error (n ++ " must be a CUDA tensor")%string);
          split; [reflexivity|];
          left; exists n, x; split; [in_args|done] ]
  | |- exists e,
         (if is_contiguous ?x then _
          else (inl (c10_Error (?n ++ _)%string), _)) = _ /\ _ =>
      destruct (is_contiguous x) eqn:?;
      [ | exists (c10_Error (n ++ " must be contiguous")%string);
          split; [reflexivity|];
          right; left; exists n, x; split; [in_args|done] ]
  | |- exists e, (if ?b then _ else _) = _ /\ _ =>
      destruct b eqn:?;
      [ | eexists; split; [reflexivity|]; right; right; inputs_passed ]
  | |- exists e, match ?o with Some _ => _ | None => _ end = _ /\ _ =>
      destruct o eqn:?;
      [ | eexists; split; [reflexivity|]; right; right; inputs_passed ]
  end.

Ltac all_passed Hacc :=
  exfalso; unfold input_ok, same_size0, c2w_ok, size1_is_4 in Hacc;
  repeat match goal with
         | H : _ = true |- _ => rewrite H in Hacc; clear H
         | H : _ = Some _ |- _ => rewrite H in Hacc; clear H
         end;
  discriminate Hacc.

(** A rejection names its culprit.  When a call is rejected, the exception
    either says "<name> must be a CUDA tensor" for an argument of that
    name which is not on a CUDA device, or "<name> must be contiguous" for
    an argument of that name which is on one but is not contiguous; any
    other exception (rank, dtype, batch size) is raised only when every
    validated tensor is CUDA-resident and contiguous. *)
Theorem rejection_names_culprit (K : Kernels) (c : Call) (w : World) :
  accepts c = false ->
  exists e,
    run K c w = (inl e, w) /\
    ((exists n x,
        (n, x) ∈ tensor_args c /\
        is_cuda x = false /\
        e = c10_Error (n ++ " must be a CUDA tensor")%string) \/
     (exists n x,
        (n, x) ∈ tensor_args c /\
        (is_cuda x = true /\ is_contiguous x = false) /\
        e = c10_Error (n ++ " must be contiguous")%string) \/
     (forall n x,
        (n, x) ∈ tensor_args c ->
        n <> "weight_accum" ->
        (n = "offset" -> camera_driven c = false) ->
        input_ok x = true)).
Proof.
  intros Hacc.
  destruct c; cbn [run accepts] in *; unfold_wrappers;
    repeat blame_step w; all_passed Hacc.
Qed.



Lemma rejection_names_culprit_witness :
  exists e,
    run Examples.idle_kernels
      (call_query_vertical (Examples.cuda_float [1; 2; 2; 2; 1] 0)
         (mkTensor (CUDA 0) false [1; 2; 2; 2] kInt 1)
         (Examples.cpu_float [3] 2) (Examples.cuda_float [3] 3)
         (Examples.cuda_float [3] 4))
      Examples.empty_world = (inl e, Examples.empty_world) /\
    ((exists n x,
        (n, x) ∈
          [("data", Examples.cuda_float [1; 2; 2; 2; 1] 0);
           ("child", mkTensor (CUDA 0) false [1; 2; 2; 2] kInt 1);
           ("indices", Examples.cpu_float [3] 2);
           ("offset", Examples.cuda_float [3] 3);
           ("scaling", Examples.cuda_float [3] 4)] /\
        is_cuda x = false /\
        e = c10_Error (n ++ " must be a CUDA tensor")%string) \/
     (exists n x,
        (n, x) ∈
          [("data", Examples.cuda_float [1; 2; 2; 2; 1] 0);
           ("child", mkTensor (CUDA 0) false [1; 2; 2; 2] kInt 1);
           ("indices", Examples.cpu_float [3] 2);
           ("offset", Examples.cuda_float [3] 3);
           ("scaling", Examples.cuda_float [3] 4)] /\
        (is_cuda x = true /\ is_contiguous x = false) /\
        e = c10_Error (n ++ " must be contiguous")%string) \/
     (forall n x,
        (n, x) ∈
          [("data", Examples.cuda_float [1; 2; 2; 2; 1] 0);
           ("child", mkTensor (CUDA 0) false [1; 2; 2; 2] kInt 1);
           ("indices", Examples.cpu_float [3] 2);
           ("offset", Examples.cuda_float [3] 3);
           ("scaling", Examples.cuda_float [3] 4)] ->
        n <> "weight_accum" ->
        (n = "offset" -> false = false) ->
        input_ok x = true)).
Proof.
  exact (rejection_names_culprit Examples.idle_kernels
           (call_query_vertical (Examples.cuda_float [1; 2; 2; 2; 1] 0)
              (mkTensor (CUDA 0) false [1; 2; 2; 2] kInt 1)
              (Examples.cpu_float [3] 2) (Examples.cuda_float [3] 3)
              (Examples.cuda_float [3] 4))
           Examples.empty_world eq_refl).
Defined.

Ltac rank_clash x :=
  exfalso;
  match goal with
  | H : (ndimension x =? 2) = true, Hs : sizes x !! 1%nat = None |- _ =>
      apply Z.eqb_eq in H; unfold ndimension, dim in H;
      apply lookup_ge_None in Hs; lia
  end.

Ltac index_step :=
  lazymatch goal with
  | |- exists e, (if ?b then _ else _) = _ /\ _ =>
      destruct b eqn:?;
      [ | eexists; split; [reflexivity|]; intros ? [=] ]
  | |- exists e, match ?o with Some _ => _ | None => _ end = _ /\ _ =>
      lazymatch o with
      | sizes ?x !! 0%nat =>
          destruct (sizes x !! 0%nat) eqn:?;
          [ | eexists; split; [reflexivity|]; intros ? _;
              eexists _, x; split; [in_args|];
              split; [auto 6|];
              match goal with
              | Hs : sizes x !! 0%nat = None |- _ =>
                  apply lookup_ge_None in Hs; apply nil_length_inv; lia
              end ]
      | sizes ?x !! 1%nat =>
          destruct (sizes x !! 1%nat) eqn:?; [ | rank_clash x ]
      end
  end.

(** [c10::IndexError] comes from a ray tensor without dimensions only.  A
    rejection is an IndexError only when origins, dirs or vdirs is
    0-dimensional, so that its [size(0)] is out of range; in the
    camera-driven operations the rank check on [c2w] always runs before
    [c2w.size(1)], which therefore never throws. *)
Theorem index_error_means_scalar_ray (K : Kernels) (c : Call) (w : World) :
  accepts c = false ->
  exists e,
    run K c w = (inl e, w) /\
    (forall msg,
       e = c10_IndexError msg ->
       exists n x,
         (n, x) ∈ tensor_args c /\
         (n = "origins" \/ n = "dirs" \/ n = "vdirs") /\
         sizes x = []).
Proof.
  intros Hacc.
  destruct c; cbn [run accepts] in *; unfold_wrappers;
    repeat index_step; all_passed Hacc.
Qed.

Lemma index_error_means_scalar_ray_witness :
  exists e,
    run Examples.idle_kernels
      (call_volume_render (Examples.cuda_float [1; 2; 2; 2; 4] 0)
         (Examples.cuda_float [1; 2; 2; 2] 1) (Examples.cuda_float [0] 2)
         (Examples.cuda_float [5; 3] 3) (Examples.cuda_float [5; 3] 4)
         (Examples.cuda_float [] 5) (Examples.cuda_float [3] 6)
         (Examples.cuda_float [3] 7) (1 # 100)%Q 1%Q 0 0 false
         (Examples.cuda_float [8] 8))
      Examples.empty_world = (inl e, Examples.empty_world) /\
    (forall msg,
       e = c10_IndexError msg ->
       exists n x,
         (n, x) ∈
           tensor_args
             (call_volume_render (Examples.cuda_float [1; 2; 2; 2; 4] 0)
                (Examples.cuda_float [1; 2; 2; 2] 1)
                (Examples.cuda_float [0] 2) (Examples.cuda_float [5; 3] 3)
                (Examples.cuda_float [5; 3] 4) (Examples.cuda_float [] 5)
                (Examples.cuda_float [3] 6) (Examples.cuda_float [3] 7)
                (1 # 100)%Q 1%Q 0 0 false (Examples.cuda_float [8] 8)) /\
         (n = "origins" \/ n = "dirs" \/ n = "vdirs") /\
         sizes x = []).
Proof.
  exact (index_error_means_scalar_ray Examples.idle_kernels
           (call_volume_render (Examples.cuda_float [1; 2; 2; 2; 4] 0)
              (Examples.cuda_float [1; 2; 2; 2] 1)
              (Examples.cuda_float [0] 2) (Examples.cuda_float [5; 3] 3)
              (Examples.cuda_float [5; 3] 4) (Examples.cuda_float [] 5)
              (Examples.cuda_float [3] 6) (Examples.cuda_float [3] 7)
              (1 # 100)%Q 1%Q 0 0 false (Examples.cuda_float [8] 8))
           Examples.empty_world eq_refl).
Defined.

(** The edge itself, evaluated: a 0-dimensional [vdirs] makes
    [volume_render] throw an IndexError, not a check failure. *)
Example scalar_vdirs_raises_index_error :
  volume_render Examples.idle_kernels (Examples.cuda_float [1; 2; 2; 2; 4] 0)
    (Examples.cuda_float [1; 2; 2; 2] 1) (Examples.cuda_float [0] 2)
    (Examples.cuda_float [5; 3] 3) (Examples.cuda_float [5; 3] 4)
    (Examples.cuda_float [] 5) (Examples.cuda_float [3] 6)
    (Examples.cuda_float [3] 7) (1 # 100)%Q 1%Q 0 0 false
    (Examples.cuda_float [8] 8) Examples.empty_world =
  (inl (c10_IndexError "Dimension out of range"), Examples.empty_world).
Proof. reflexivity. Qed.



Ltac ambient_step :=
  lazymatch goal with
  | |- (if ?b then _ else _).1 = _ /\ _ => destruct b; [ | by split ]
  | |- (match ?o with Some _ => _ | None => _ end).1 = _ /\ _ =>
      destruct o; [ | by split ]
  end.

(** The device that is current when an operation is called does not matter:
    the guard replaces it by the device of [data] ([grad_output] in
    [query_vertical_backward]) before the kernel runs, so the result or
    exception of a call, and the device memory it leaves, are the same
    from any current device. *)
Theorem ambient_device_irrelevant (K : Kernels) (c : Call) (w : World)
  (j : Z) :
  (run K c (set_device j w)).1 = (run K c w).1 /\
  memory (run K c (set_device j w)).2 = memory (run K c w).2.
Proof.
  destruct c; cbn [run]; unfold_wrappers; repeat ambient_step;
    unfold OptionalCUDAGuard, device_of;
    match goal with
    | |- context [device ?x] => destruct (device x) as [|i]; [by split|]
    end;
    change (set_device i (set_device j w)) with (set_device i w);
    match goal with
    | |- context [let '(_, _) := ?body in _] => by destruct body
    end.
Qed.

End BoundaryFacts.
